(** * NeMo Retriever Parse plugin: a shallow embedding of [nemo_retriever.py]
      and of the package entry point [__init__.py].

    Python values that travel through the code are decoded JSON documents;
    exceptions, the local lists that the loops mutate, the HTTP calls and
    the writes on the dataset are threaded through a state-and-exception
    monad whose state survives a raised exception, as Python's does. *)

From Stdlib Require Import ZArith List String Ascii Floats Lia.
From stdpp Require Import gmap strings.
Import ListNotations.

Local Open Scope Z_scope.

(** ** Exceptions

    Every constructor stands for a subclass of Python's [Exception], so an
    [except Exception] clause catches each of them. *)

Inductive exn : Type :=
| KeyError
| IndexError
| TypeError
| AttributeError
| ValueError
| OverflowError
| OSError
| RequestException
| HTTPError (status : Z)
| ValidationError
| ImportError.

Inductive result (A : Type) : Type :=
| Ok (a : A)
| Raise (e : exn).

Arguments Ok {A} a.
Arguments Raise {A} e.

Definition rbind {A B} (r : result A) (k : A -> result B) : result B :=
  match r with
  | Ok a => k a
  | Raise e => Raise e
  end.

(** ** Decoded JSON values

    A dict is kept as an association list in insertion order: iterating a
    dict walks its keys in that order. *)

#[warnings="-register-all"]
Inductive json : Type :=
| JNull
| JBool (b : bool)
| JInt (n : Z)
| JFloat (f : float)
| JStr (s : string)
| JList (l : list json)
| JDict (d : list (string * json)).

Fixpoint assoc (key : string) (d : list (string * json)) : option json :=
  match d with
  | [] => None
  | (k, v) :: d' => if String.eqb k key then Some v else assoc key d'
  end.

(** [v[key]] for a string key. *)
Definition getitem (v : json) (key : string) : result json :=
  match v with
  | JDict d => match assoc key d with
               | Some x => Ok x
               | None => Raise KeyError
               end
  | _ => Raise TypeError
  end.

(** [v[0]]. A JSON dict has string keys only, so [0] is never one of them. *)
Definition getitem0 (v : json) : result json :=
  match v with
  | JList (x :: _) => Ok x
  | JList [] => Raise IndexError
  | JStr (String c _) => Ok (JStr (String c EmptyString))
  | JStr EmptyString => Raise IndexError
  | JDict _ => Raise KeyError
  | _ => Raise TypeError
  end.

(** [v.get(key, default)]: only a dict has the method. *)
Definition dict_get (v : json) (key : string) (default : json) : result json :=
  match v with
  | JDict d => match assoc key d with
               | Some x => Ok x
               | None => Ok default
               end
  | _ => Raise AttributeError
  end.

Fixpoint chars (s : string) : list json :=
  match s with
  | EmptyString => []
  | String c s' => JStr (String c EmptyString) :: chars s'
  end.

(** The items a [for] loop visits. *)
Definition py_iter (v : json) : result (list json) :=
  match v with
  | JList l => Ok l
  | JStr s => Ok (chars s)
  | JDict d => Ok (map (fun kv => JStr (fst kv)) d)
  | _ => Raise TypeError
  end.

(** [float(n)] for an int: the nearest double, ties to even;
    [OverflowError] when that is out of range. *)
Definition float_of_int (n : Z) : result float :=
  match binary_normalize prec emax n 0 false with
  | S754_infinity _ => Raise OverflowError
  | sf => Ok (SF2Prim sf)
  end.

(** ** Annotations *)

Record Detection : Type := mkDetection {
  label : json;
  bounding_box : list float;
  text : json
}.

Record Detections : Type := mkDetections {
  detections : list Detection
}.

(** [Detection(label=..., bounding_box=..., text=...)]. FiftyOne checks the
    declared fields when the object is built: [label] is a string field
    that may be null, and anything else raises [ValidationError]; the box
    is a list of floats; [text] is not a declared field and is stored as
    it comes. *)
Definition new_detection (label : json) (bbox : list float) (text : json)
  : result Detection :=
  match label with
  | JStr _ | JNull => Ok (mkDetection label bbox text)
  | _ => Raise ValidationError
  end.

(** ** The state-and-exception monad *)

Definition ES (S A : Type) : Type := S -> result A * S.

Definition ret {S A} (a : A) : ES S A := fun s => (Ok a, s).

Definition raise {S A} (e : exn) : ES S A := fun s => (Raise e, s).

Definition bind {S A B} (m : ES S A) (k : A -> ES S B) : ES S B :=
  fun s => match m s with
           | (Ok a, s') => k a s'
           | (Raise e, s') => (Raise e, s')
           end.

Definition lift {S A} (r : result A) : ES S A := fun s => (r, s).

Definition gets {S A} (f : S -> A) : ES S A := fun s => (Ok (f s), s).

Definition modify {S} (f : S -> S) : ES S unit := fun s => (Ok tt, f s).

(** [try: body / except Exception as e: handler e]: the handler starts from
    the state the body left behind. *)
Definition try_except {S A} (body : ES S A) (handler : exn -> ES S A) : ES S A :=
  fun s => match body s with
           | (Ok a, s') => (Ok a, s')
           | (Raise e, s') => handler e s'
           end.

Declare Scope py_scope.
Delimit Scope py_scope with py.
Notation "x <- c ;; k" := (bind c (fun x => k))
  (at level 100, c at next level, right associativity) : py_scope.
Notation "c ;; k" := (bind c (fun _ => k))
  (at level 100, right associativity) : py_scope.

Local Open Scope py_scope.

Fixpoint for_each {S A} (items : list A) (body : A -> ES S unit) : ES S unit :=
  match items with
  | [] => ret tt
  | x :: rest => body x ;; for_each rest body
  end.

(** ** HTTP requests and the observable state *)

Inductive http_method : Type := POST | PUT.

Inductive body : Type :=
| JsonBody (j : json)
| DataBody (data : list Byte.byte).

Record request : Type := mkRequest {
  method : http_method;
  url : json;
  headers : gmap string string;
  payload : body;
  timeout : option Z
}.

Record response : Type := mkResponse {
  status_code : Z;
  json_body : result json
}.

Inductive line : Type :=
| ErrorParsing (e : exn)
| ErrorProcessing (filepath : string) (e : exn).

Inductive field_value : Type :=
| VDetections (d : Detections)
| VJson (j : json).

Record dataset : Type := mkDataset {
  filepath : list string;
  fields : gmap string (list field_value)
}.

Record state : Type := mkState {
  requests_made : list request;
  stdout : list line;
  all_detections : list Detections;
  prompt_tokens : list json;
  completion_tokens : list json;
  total_tokens : list json;
  ds : dataset
}.

(** The state once the calls [new] have been made, in that order. *)
Definition sent (new : list request) (s : state) : state :=
  mkState (requests_made s ++ new) (stdout s) (all_detections s)
          (prompt_tokens s) (completion_tokens s) (total_tokens s) (ds s).

Definition log_request (r : request) (s : state) : state := sent [r] s.

Definition print (l : line) : ES state unit :=
  modify (fun s =>
    mkState (requests_made s) (stdout s ++ [l]) (all_detections s)
            (prompt_tokens s) (completion_tokens s) (total_tokens s) (ds s)).

Section Plugin.

(** The interpreter's and the libraries' side: [json.loads], [float] and
    [str] on values other than those spelled out below, [open(...).read()],
    and the remote servers, whose answer may depend on the calls made so
    far. *)
Variable json_loads : string -> result json.
Variable float_of_str : string -> result float.
Variable repr : json -> string.
Variable read_file : string -> result (list Byte.byte).
Variable server : list request -> request -> result response.

(** [create_headers]: [asset_id] is [None] by default, and the [if] tests
    its truth value, which is false for [None] and for the empty string. *)
Definition truthy (asset_id : option string) : bool :=
  match asset_id with
  | Some (String _ _) => true
  | _ => false
  end.

(** [old.update(new)]: the keys of [new] win. *)
Definition update (new old : gmap string string) : gmap string string :=
  new ∪ old.

Definition create_headers (api_key : string) (asset_id : option string)
  : gmap string string :=
  let headers : gmap string string :=
    {[ "Authorization" := "Bearer " +:+ api_key;
       "Accept" := "application/json" ]} in
  if truthy asset_id then
    let a := default "" asset_id in
    update {[ "Content-Type" := "application/json";
              "NVCF-INPUT-ASSET-REFERENCES" := a;
              "NVCF-FUNCTION-ASSET-IDS" := a ]} headers
  else headers.

(** [float(v)]. *)
Definition to_float (v : json) : result float :=
  match v with
  | JInt n => float_of_int n
  | JFloat f => Ok f
  | JBool true => Ok 1%float
  | JBool false => Ok 0%float
  | JStr s => float_of_str s
  | _ => Raise TypeError
  end.

(** [str(v)]. *)
Definition py_str (v : json) : string :=
  match v with
  | JStr s => s
  | _ => repr v
  end.

(** [json.loads(v)]: the argument must be a string. *)
Definition loads (v : json) : result json :=
  match v with
  | JStr s => json_loads s
  | _ => Raise TypeError
  end.

(** *** [parse_nemo_response_to_detections] *)

(** [float(elem['bbox'][key])]. *)
Definition coord (elem : json) (key : string) : result float :=
  rbind (getitem elem "bbox") (fun b =>
  rbind (getitem b key) to_float).

(** One turn of the element loop, up to the [Detection] it builds. *)
Definition convert_element (elem : json) : result Detection :=
  rbind (coord elem "xmin") (fun x =>
  rbind (coord elem "ymin") (fun y =>
  rbind (coord elem "xmax") (fun xmax =>
  rbind (coord elem "xmin") (fun xmin =>
  rbind (coord elem "ymax") (fun ymax =>
  rbind (coord elem "ymin") (fun ymin =>
  let bbox := [x; y; PrimFloat.sub xmax xmin; PrimFloat.sub ymax ymin] in
  rbind (getitem elem "type") (fun ty =>
  rbind (getitem elem "text") (fun tx =>
  new_detection ty bbox tx)))))))).

(** [response['choices'][0]['message']], the head of the chain below. *)
Definition message_of (response : json) : result json :=
  rbind (getitem response "choices") (fun a =>
  rbind (getitem0 a) (fun b =>
  getitem b "message")).

(** [response['choices'][0]['message']['tool_calls'][0]['function']['arguments']]. *)
Definition arguments_of (response : json) : result json :=
  rbind (message_of response) (fun c =>
  rbind (getitem c "tool_calls") (fun d =>
  rbind (getitem0 d) (fun e =>
  rbind (getitem e "function") (fun f =>
  getitem f "arguments")))).

(** One turn of the element loop. *)
Definition loop_turn (elem : json) : ES (list Detection) unit :=
  detection <- lift (convert_element elem) ;;
  modify (fun dets => (dets ++ [detection])%list).

(** The body of the [try]; its state is the local list [detections]. *)
Definition parse_body (response : json) : ES (list Detection) unit :=
  bbox_data <- lift (arguments_of response) ;;
  elements <- lift (rbind (loads bbox_data) getitem0) ;;
  items <- lift (py_iter elements) ;;
  for_each items loop_turn.

(** The elements the loop is to visit, when the code gets as far as the
    loop. *)
Definition items_of (response : json) : result (list json) :=
  rbind (arguments_of response) (fun bbox_data =>
  rbind (rbind (loads bbox_data) getitem0) py_iter).

Definition parse_nemo_response_to_detections (response : json)
  : ES state Detections :=
  match parse_body response [] with
  | (Ok _, dets) => ret (mkDetections dets)
  | (Raise e, dets) => print (ErrorParsing e) ;; ret (mkDetections dets)
  end.

(** What an element that converts carries: its [type], its [text] and the
    four corners of its [bbox] read as numbers. *)
Record element_view : Type := mkView {
  v_type : json;
  v_text : json;
  v_xmin : float;
  v_ymin : float;
  v_xmax : float;
  v_ymax : float
}.

(** A label [Detection] accepts: a string or null. *)
Definition valid_label (j : json) : Prop :=
  j = JNull \/ exists s, j = JStr s.

(** The element has a [type] that is a valid label, a [text], and a
    [bbox] all four corners of which pass [float()]. *)
Definition has_fields (elem : json) (v : element_view) : Prop :=
  getitem elem "type" = Ok (v_type v) /\
  valid_label (v_type v) /\
  getitem elem "text" = Ok (v_text v) /\
  coord elem "xmin" = Ok (v_xmin v) /\
  coord elem "ymin" = Ok (v_ymin v) /\
  coord elem "xmax" = Ok (v_xmax v) /\
  coord elem "ymax" = Ok (v_ymax v).

(** The region [[xmin, ymin, xmax - xmin, ymax - ymin]] with the element's
    label and text. *)
Definition region (v : element_view) : Detection :=
  mkDetection (v_type v)
    [v_xmin v; v_ymin v;
     PrimFloat.sub (v_xmax v) (v_xmin v);
     PrimFloat.sub (v_ymax v) (v_ymin v)]
    (v_text v).



(** *** The HTTP layer *)

(** [requests.post] and [requests.put]: the call is made and recorded
    whatever its outcome. *)
Definition send (r : request) : ES state response :=
  fun s => (server (requests_made s) r, log_request r s).

(** [Response.raise_for_status]. *)
Definition raise_for_status (r : response) : ES state unit :=
  if (400 <=? status_code r) && (status_code r <? 600)
  then raise (HTTPError (status_code r))
  else ret tt.

Definition assets_url : json := JStr "https://api.nvcf.nvidia.com/v2/nvcf/assets".

Definition completions_url : json :=
  JStr "https://integrate.api.nvidia.com/v1/chat/completions".

Definition register_request (description api_key : string) : request :=
  mkRequest POST assets_url (create_headers api_key None)
    (JsonBody (JDict [("contentType", JStr "image/jpeg");
                      ("description", JStr description)]))
    (Some 30).

Definition upload_headers (description : string) : gmap string string :=
  {[ "x-amz-meta-nvcf-asset-description" := description;
     "content-type" := "image/jpeg" ]}.

Definition upload_request (upload_url : json) (image_data : list Byte.byte)
    (description : string) : request :=
  mkRequest PUT upload_url (upload_headers description)
    (DataBody image_data)
    (Some 300).

Definition upload_asset (image_data : list Byte.byte)
    (description api_key : string) : ES state string :=
  auth_response <- send (register_request description api_key) ;;
  raise_for_status auth_response ;;
  auth_data <- lift (json_body auth_response) ;;
  upload_url <- lift (getitem auth_data "uploadUrl") ;;
  upload_response <- send (upload_request upload_url image_data description) ;;
  raise_for_status upload_response ;;
  asset_id <- lift (getitem auth_data "assetId") ;;
  ret (py_str asset_id).

Definition parse_payload (asset_id : string) : json :=
  let content :=
    JList [JDict [("type", JStr "image_url");
                  ("image_url",
                   JDict [("url", JStr ("data:image/jpeg;asset_id," +:+ asset_id))])]] in
  let tool :=
    JList [JDict [("type", JStr "function");
                  ("function", JDict [("name", JStr "markdown_bbox")])]] in
  JDict [("tools", tool);
         ("model", JStr "nvidia/nemoretriever-parse");
         ("messages", JList [JDict [("role", JStr "user"); ("content", content)]])].

Definition parse_request (api_key asset_id : string) : request :=
  mkRequest POST completions_url (create_headers api_key (Some asset_id))
    (JsonBody (parse_payload asset_id)) None.

Definition process_image (image_path api_key : string) : ES state json :=
  image_data <- lift (read_file image_path) ;;
  asset_id <- upload_asset image_data "Test Image" api_key ;;
  response <- send (parse_request api_key asset_id) ;;
  raise_for_status response ;;
  lift (json_body response).

(** *** [run_nemo_parse] *)

Definition append_detections (d : Detections) : ES state unit :=
  modify (fun s =>
    mkState (requests_made s) (stdout s) (all_detections s ++ [d])
            (prompt_tokens s) (completion_tokens s) (total_tokens s) (ds s)).

Definition append_prompt (v : json) : ES state unit :=
  modify (fun s =>
    mkState (requests_made s) (stdout s) (all_detections s)
            (prompt_tokens s ++ [v]) (completion_tokens s) (total_tokens s) (ds s)).

Definition append_completion (v : json) : ES state unit :=
  modify (fun s =>
    mkState (requests_made s) (stdout s) (all_detections s)
            (prompt_tokens s) (completion_tokens s ++ [v]) (total_tokens s) (ds s)).

Definition append_total (v : json) : ES state unit :=
  modify (fun s =>
    mkState (requests_made s) (stdout s) (all_detections s)
            (prompt_tokens s) (completion_tokens s) (total_tokens s ++ [v]) (ds s)).

(** The four lists start empty. *)
Definition init_lists : ES state unit :=
  modify (fun s => mkState (requests_made s) (stdout s) [] [] [] [] (ds s)).

(** [dataset.set_values(name, values)]: the field holds the given values,
    a new field or an existing one alike. *)
Definition set_values (name : string) (values : list field_value) : ES state unit :=
  modify (fun s =>
    mkState (requests_made s) (stdout s) (all_detections s)
            (prompt_tokens s) (completion_tokens s) (total_tokens s)
            (mkDataset (filepath (ds s)) (<[name := values]> (fields (ds s))))).

(** The body of the [try] of one turn of the loop. *)
Definition item_body (api_key image_path : string) : ES state unit :=
  response <- process_image image_path api_key ;;
  dets <- parse_nemo_response_to_detections response ;;
  append_detections dets ;;
  usage <- lift (dict_get response "usage" (JDict [])) ;;
  p <- lift (dict_get usage "prompt_tokens" (JInt 0)) ;;
  append_prompt p ;;
  c <- lift (dict_get usage "completion_tokens" (JInt 0)) ;;
  append_completion c ;;
  t <- lift (dict_get usage "total_tokens" (JInt 0)) ;;
  append_total t.

Definition item_handler (image_path : string) (e : exn) : ES state unit :=
  print (ErrorProcessing image_path e) ;;
  append_detections (mkDetections []) ;;
  append_prompt (JInt 0) ;;
  append_completion (JInt 0) ;;
  append_total (JInt 0).

Definition process_item (api_key image_path : string) : ES state unit :=
  try_except (item_body api_key image_path) (item_handler image_path).

Definition run_nemo_parse (api_key : string) : ES state unit :=
  filepaths <- gets (fun s => filepath (ds s)) ;;
  init_lists ;;
  for_each filepaths (process_item api_key) ;;
  d <- gets all_detections ;;
  set_values "nemo_detections" (map VDetections d) ;;
  p <- gets prompt_tokens ;;
  set_values "nemo_prompt_tokens" (map VJson p) ;;
  c <- gets completion_tokens ;;
  set_values "nemo_completion_tokens" (map VJson c) ;;
  t <- gets total_tokens ;;
  set_values "nemo_total_tokens" (map VJson t).

(** *** The package entry point, [__init__.py] *)

(** What a top-level name of [nemo_retriever.py] is bound to: the batch
    function, or something the entry point has no use for. *)
Inductive attribute : Type :=
| BatchFunction (f : string -> ES state unit)
| Other.

(** The top-level names of [nemo_retriever.py], in the order it binds
    them: eight imports, then five [def]s. *)
Definition nemo_retriever : list (string * attribute) :=
  [("fo", Other); ("Detections", Other); ("Detection", Other);
   ("json", Other); ("requests", Other); ("Dict", Other);
   ("getpass", Other); ("tqdm", Other);
   ("create_headers", Other); ("upload_asset", Other);
   ("process_image", Other);
   ("parse_nemo_response_to_detections", Other);
   ("run_nemo_parse", BatchFunction run_nemo_parse)].

Fixpoint module_attr (name : string) (m : list (string * attribute))
  : option attribute :=
  match m with
  | [] => None
  | (k, a) :: m' => if String.eqb k name then Some a else module_attr name m'
  end.

(** [from module import name]. *)
Definition import_from (m : list (string * attribute)) (name : string)
  : result attribute :=
  match module_attr name m with
  | Some a => Ok a
  | None => Raise ImportError
  end.

Definition call (a : attribute) (api_key : string) : ES state unit :=
  match a with
  | BatchFunction f => f api_key
  | Other => raise TypeError
  end.

(** The host's [ctx.ops.reload_dataset()]. *)
Variable reload_dataset : ES state unit.

Record package : Type := mkPackage {
  execute : string -> ES state unit
}.

(** Running [__init__.py]: the import statement, then the class whose
    [execute] calls the imported name. The imports of installed libraries
    that come first are taken to succeed. *)
Definition load_package : result package :=
  rbind (import_from nemo_retriever "run_nemo_retriever_parse")
    (fun run_nemo_retriever_parse =>
  Ok (mkPackage (fun api_key =>
        call run_nemo_retriever_parse api_key ;;
        reload_dataset))).

(** The host runs the operator: it loads the package, then calls
    [execute]. *)
Definition run_operator (api_key : string) : ES state unit :=
  plugin <- lift load_package ;;
  execute plugin api_key.

End Plugin.

(** ** What one item leaves behind *)

(** The state once [d], [p], [c] and [t] have been appended, one to each
    of the four lists. *)
Definition recorded (d : Detections) (p c t : json) (s : state) : state :=
  mkState (requests_made s) (stdout s) (all_detections s ++ [d])
          (prompt_tokens s ++ [p]) (completion_tokens s ++ [c])
          (total_tokens s ++ [t]) (ds s).

(** The three counters read off a response the way the loop reads them:
    [response.get('usage', {})], then three [.get(..., 0)]. *)
Definition usage_of (response : json) : result (json * json * json) :=
  rbind (dict_get response "usage" (JDict [])) (fun usage =>
  rbind (dict_get usage "prompt_tokens" (JInt 0)) (fun p =>
  rbind (dict_get usage "completion_tokens" (JInt 0)) (fun c =>
  rbind (dict_get usage "total_tokens" (JInt 0)) (fun t =>
  Ok (p, c, t))))).

(** The two outcomes an item is meant to have, seen on the lists before
    and after its turn: one entry more in each list, either what the
    response gave or the empty and zero values. *)
Definition success_outcome (dets : Detections) (p c t : json) (s s' : state) : Prop :=
  all_detections s' = (all_detections s ++ [dets])%list /\
  prompt_tokens s' = (prompt_tokens s ++ [p])%list /\
  completion_tokens s' = (completion_tokens s ++ [c])%list /\
  total_tokens s' = (total_tokens s ++ [t])%list.

Definition failed_outcome (s s' : state) : Prop :=
  success_outcome (mkDetections []) (JInt 0) (JInt 0) (JInt 0) s s'.

(** The names of the four fields the run writes. *)
Definition written_fields : list string :=
  ["nemo_detections"; "nemo_prompt_tokens";
   "nemo_completion_tokens"; "nemo_total_tokens"].

(** ** The counters each sample is to get *)

Section Expected.

Variable json_loads : string -> result json.
Variable float_of_str : string -> result float.
Variable repr : json -> string.
Variable read_file : string -> result (list Byte.byte).
Variable server : list request -> request -> result response.

(** The three counters the turn of [image_path] has to record when it
    starts in [s]: those read off the response when [process_image]
    returns one and they can be read, zeros otherwise. *)
Definition counters_of_turn (api_key image_path : string) (s : state)
  : json * json * json :=
  match fst (process_image repr read_file server image_path api_key s) with
  | Ok response =>
      match usage_of response with
      | Ok counters => counters
      | Raise _ => (JInt 0, JInt 0, JInt 0)
      end
  | Raise _ => (JInt 0, JInt 0, JInt 0)
  end.

(** One triple of counters per path, in the order of the paths, each turn
    starting in the state the turn before it left. *)
Fixpoint counters_per_sample (api_key : string) (paths : list string)
    (s : state) : list (json * json * json) :=
  match paths with
  | [] => []
  | image_path :: rest =>
      counters_of_turn api_key image_path s ::
      counters_per_sample api_key rest
        (snd (process_item json_loads float_of_str repr read_file server
                api_key image_path s))
  end.

End Expected.

(** ** Servers whose counters can be read *)

(** A decoded body on which the loop can read the counters: an object
    whose [usage], when there is one, is an object too. *)
Definition counters_readable (j : json) : Prop :=
  exists d, j = JDict d /\
    (assoc "usage" d = None \/ exists u, assoc "usage" d = Some (JDict u)).

(** Every JSON body the server sends is of that kind. *)
Definition usage_readable (server : list request -> request -> result response)
  : Prop :=
  forall history r resp j,
    server history r = Ok resp -> json_body resp = Ok j -> counters_readable j.

(** ** The operator's parameters, [__init__.py] *)

(** The values [ctx.params] holds. *)
Inductive param : Type :=
| PNone
| PBool (b : bool)
| PStr (s : string).

(** [ctx.params.get(key, default)]. *)
Definition params_get (params : gmap string param) (key : string)
    (default_value : param) : param :=
  default default_value (params !! key).

(** [dict(api_key=api_key, delegate=delegate)], the parameters
    [_handle_calling] hands to the host for a programmatic call. *)
Definition call_params (api_key : string) (delegate : bool) : gmap string param :=
  {[ "api_key" := PStr api_key; "delegate" := PBool delegate ]}.

(** [NemoRetrieverParse.resolve_delegation]. *)
Definition resolve_delegation (params : gmap string param) : param :=
  params_get params "delegate" (PBool false).

(** The four parameters [NemoRetrieverParse.execute] reads, in order:
    [api_key], [bbox_field], [output_field], [confidence_threshold]. *)
Definition execute_reads (params : gmap string param)
  : param * param * param * param :=
  (params_get params "api_key" PNone,
   params_get params "bbox_field" PNone,
   params_get params "output_field" PNone,
   params_get params "confidence_threshold" PNone).

(** ** Sample environments

    Concrete servers, files and documents on which the functions above are
    run. *)

Module Sample.

Definition dq : string := String "034"%char EmptyString.

Definition quoted (s : string) : string := dq +:+ s +:+ dq.

Definition title_element : json :=
  JDict [("bbox", JDict [("xmin", JInt 10); ("ymin", JInt 20);
                         ("xmax", JInt 110); ("ymax", JInt 220)]);
         ("type", JStr "Title");
         ("text", JStr "Hello")].

(** An element without its [bbox]. *)
Definition bare_element : json :=
  JDict [("type", JStr "Text"); ("text", JStr "World")].

Definition title_text : string :=
  "{" +:+ quoted "bbox" +:+ ":{" +:+ quoted "xmin" +:+ ":10,"
      +:+ quoted "ymin" +:+ ":20," +:+ quoted "xmax" +:+ ":110,"
      +:+ quoted "ymax" +:+ ":220}," +:+ quoted "type" +:+ ":"
      +:+ quoted "Title" +:+ "," +:+ quoted "text" +:+ ":"
      +:+ quoted "Hello" +:+ "}".

Definition bare_text : string :=
  "{" +:+ quoted "type" +:+ ":" +:+ quoted "Text" +:+ ","
      +:+ quoted "text" +:+ ":" +:+ quoted "World" +:+ "}".

Definition one_title : string := "[[" +:+ title_text +:+ "]]".

Definition title_then_bare : string :=
  "[[" +:+ title_text +:+ "," +:+ bare_text +:+ "]]".

(** [json.loads] on the two documents above; anything else is taken not to
    be JSON. *)
Definition json_loads (s : string) : result json :=
  if String.eqb s one_title then Ok (JList [JList [title_element]])
  else if String.eqb s title_then_bare
       then Ok (JList [JList [title_element; bare_element]])
       else Raise ValueError.

(** No string of the samples is read as a number. *)
Definition float_of_str (s : string) : result float := Raise ValueError.

Definition repr (v : json) : string := "".

Definition read_file (path : string) : result (list Byte.byte) :=
  if String.eqb path "missing.jpg" then Raise OSError
  else Ok [Byte.xff; Byte.xd8].

Definition with_arguments (args : string) (usage : list (string * json)) : json :=
  JDict ([("choices",
           JList [JDict [("message",
             JDict [("tool_calls",
               JList [JDict [("function",
                 JDict [("arguments", JStr args)])]])])]])]
         ++ usage)%list.

Definition usage_counts : list (string * json) :=
  [("usage", JDict [("prompt_tokens", JInt 12);
                    ("completion_tokens", JInt 34);
                    ("total_tokens", JInt 46)])].

Definition good_response : json := with_arguments one_title usage_counts.

(** A reply whose [usage] is [null]. *)
Definition null_usage_response : json :=
  with_arguments one_title [("usage", JNull)].

Definition broken_response : json := with_arguments title_then_bare usage_counts.

(** A reply whose message has no [tool_calls]. *)
Definition no_tool_calls_response : json :=
  JDict [("choices", JList [JDict [("message", JDict [("content", JStr "")])]])].

Definition slot (asset_id : string) : response :=
  mkResponse 200
    (Ok (JDict [("uploadUrl", JStr "https://assets.example/slot");
                ("assetId", JStr asset_id)])).

Definition stored : response := mkResponse 200 (Raise ValueError).

Definition is_url (u : json) (r : request) : bool :=
  match u, url r with
  | JStr a, JStr b => String.eqb a b
  | _, _ => false
  end.

(** A server that answers by the kind of call alone. *)
Definition scripted (register put complete : result response)
  : list request -> request -> result response :=
  fun _ r =>
    match method r with
    | PUT => put
    | POST => if is_url assets_url r then register else complete
    end.

Definition good_server := scripted (Ok (slot "asset-1")) (Ok stored)
                                   (Ok (mkResponse 200 (Ok good_response))).

Definition null_usage_server := scripted (Ok (slot "asset-1")) (Ok stored)
                                   (Ok (mkResponse 200 (Ok null_usage_response))).

Definition anonymous_server := scripted (Ok (slot "")) (Ok stored)
                                   (Ok (mkResponse 200 (Ok good_response))).

Definition rejecting_put_server :=
  scripted (Ok (slot "asset-1")) (Ok (mkResponse 403 (Raise ValueError)))
           (Ok (mkResponse 200 (Ok good_response))).

(** The first registration is refused with 401; every later call is
    served. *)
Definition unauthorized_once : list request -> request -> result response :=
  fun history r =>
    match history with
    | [] => Ok (mkResponse 401 (Raise ValueError))
    | _ => good_server history r
    end.

Definition api_key : string := "nvapi-key".

Definition start (paths : list string) (fs : gmap string (list field_value)) : state :=
  mkState [] [] [] [] [] [] (mkDataset paths fs).

Definition title_view : element_view :=
  mkView (JStr "Title") (JStr "Hello") 10%float 20%float 110%float 220%float.

Definition title_region : Detection :=
  mkDetection (JStr "Title") [10%float; 20%float; 100%float; 200%float] (JStr "Hello").

(** The first parse invocation is answered with a [null] usage, the
    later ones with counters. *)
Definition null_usage_once : list request -> request -> result response :=
  fun history r =>
    if (length history <=? 2)%nat then null_usage_server history r
    else good_server history r.

(** A dataset that was annotated before. *)
Definition annotated_before : gmap string (list field_value) :=
  {[ "nemo_total_tokens" := [VJson (JInt 46)];
     "ground_truth" := [VJson (JStr "invoice")] ]}.

Definition image : list Byte.byte := [Byte.xff; Byte.xd8].






(** An element whose [type] is a number. *)
Definition numbered_element : json :=
  JDict [("bbox", JDict [("xmin", JInt 10); ("ymin", JInt 20);
                         ("xmax", JInt 110); ("ymax", JInt 220)]);
         ("type", JInt 5);
         ("text", JStr "Hello")].

(** A PUT answered with 304: not a success, not an error status. *)
Definition not_modified_put_server :=
  scripted (Ok (slot "asset-1")) (Ok (mkResponse 304 (Raise ValueError)))
           (Ok (mkResponse 200 (Ok good_response))).

(** A document whose top level is the list of elements itself, one
    bracket short of what the conversion expects. *)
Definition flat_text : string := "[" +:+ title_text +:+ "]".

Definition flat_loads (s : string) : result json :=
  if String.eqb s flat_text then Ok (JList [title_element])
  else Raise ValueError.

Definition flat_response : json := with_arguments flat_text usage_counts.

(** A reply with a second choice after the one of [good_response]. *)
Definition two_choices : list (string * json) :=
  [("choices",
    JList [JDict [("message",
             JDict [("tool_calls",
               JList [JDict [("function",
                 JDict [("arguments", JStr one_title)])]])])];
           JDict [("message", JDict [("content", JStr "second")])]])].

(** A registration answer without its [assetId]. *)
Definition slot_without_id : response :=
  mkResponse 200
    (Ok (JDict [("uploadUrl", JStr "https://assets.example/slot")])).

Definition forgetful_server := scripted (Ok slot_without_id) (Ok stored)
                                   (Ok (mkResponse 200 (Ok good_response))).


Definition slot_url : json := JStr "https://assets.example/slot".

(** The three calls made for one image when every call is served. *)
Definition three_calls : list request :=
  [register_request "Test Image" api_key;
   upload_request slot_url [Byte.xff; Byte.xd8] "Test Image";
   parse_request api_key "asset-1"].

(** The functions of the plugin in this environment, the server left
    open. *)
Definition parse : json -> ES state Detections :=
  parse_nemo_response_to_detections json_loads float_of_str.

Definition upload (server : list request -> request -> result response)
  : list Byte.byte -> string -> string -> ES state string :=
  upload_asset repr server.

Definition process (server : list request -> request -> result response)
  : string -> string -> ES state json :=
  process_image repr read_file server.

Definition item (server : list request -> request -> result response)
  : string -> string -> ES state unit :=
  process_item json_loads float_of_str repr read_file server.

Definition batch (server : list request -> request -> result response)
  : string -> ES state unit :=
  run_nemo_parse json_loads float_of_str repr read_file server.

End Sample.


(** * Properties *)

(** Unfolds the sequencing operators. *)
Ltac run :=
  unfold bind, lift, ret, raise, modify, gets, try_except in *; simpl in *.

(** ** Response-to-annotation conversion *)

Section Conversion.

Variable json_loads : string -> result json.
Variable float_of_str : string -> result float.

Abbreviation convert := (convert_element float_of_str).
Abbreviation turn := (loop_turn float_of_str).
Abbreviation parse := (parse_nemo_response_to_detections json_loads float_of_str).
Abbreviation items := (items_of json_loads).
Abbreviation body_of := (parse_body json_loads float_of_str).

Lemma loop_converts_all (elems : list json) (dets acc : list Detection) :
  Forall2 (fun el d => convert el = Ok d) elems dets ->
  for_each elems turn acc = (Ok tt, (acc ++ dets)%list).
Proof.
  intros H. revert acc.
  induction H as [|el d elems dets Hel _ IH]; intros acc; simpl.
  - now rewrite app_nil_r.
  - unfold bind at 1. unfold loop_turn at 1. run. rewrite Hel. simpl.
    rewrite IH. now rewrite <- app_assoc.
Qed.

Lemma loop_stops_at_failure (pre post : list json) (bad : json) (e : exn)
    (dets acc : list Detection) :
  Forall2 (fun el d => convert el = Ok d) pre dets ->
  convert bad = Raise e ->
  for_each (pre ++ bad :: post)%list turn acc = (Raise e, (acc ++ dets)%list).
Proof.
  intros H Hbad. revert acc.
  induction H as [|el d pre dets Hel _ IH]; intros acc; simpl.
  - unfold bind at 1. unfold loop_turn at 1. run. rewrite Hbad. simpl.
    now rewrite app_nil_r.
  - unfold bind at 1. unfold loop_turn at 1. run. rewrite Hel. simpl.
    rewrite IH. now rewrite <- app_assoc.
Qed.

Lemma body_before_loop (response : json) (e : exn) :
  items response = Raise e -> body_of response [] = (Raise e, []).
Proof.
  unfold items_of, parse_body. run.
  destruct (arguments_of response) as [b|]; simpl; [|congruence].
  destruct (rbind (loads json_loads b) getitem0) as [el|]; simpl; [|congruence].
  destruct (py_iter el); simpl; congruence.
Qed.

Lemma body_in_loop (response : json) (elems : list json) :
  items response = Ok elems -> body_of response [] = for_each elems turn [].
Proof.
  unfold items_of, parse_body. run.
  destruct (arguments_of response) as [b|]; simpl; [|congruence].
  destruct (rbind (loads json_loads b) getitem0) as [el|]; simpl; [|congruence].
  destruct (py_iter el); simpl; congruence.
Qed.

Lemma has_fields_convert (elem : json) (v : element_view) :
  has_fields float_of_str elem v -> convert elem = Ok (region v).
Proof.
  intros (Hty & Hlabel & Htx & Hx & Hy & HX & HY).
  unfold convert_element. rewrite Hx, Hy, HX, HY. simpl.
  rewrite Hty, Htx. simpl. unfold region.
  destruct Hlabel as [-> | [l ->]]; reflexivity.
Qed.



Lemma parse_returns_what_the_body_left (response : json) (s : state) :
  parse response s =
  match body_of response [] with
  | (Ok _, dets) => (Ok (mkDetections dets), s)
  | (Raise e, dets) => (Ok (mkDetections dets), snd (print (ErrorParsing e) s))
  end.
Proof.
  unfold parse_nemo_response_to_detections.
  destruct (body_of response []) as [[u|e] dets]; reflexivity.
Qed.

(** C2, as the code has it: an exception raised inside the [try] never
    leaves the function. Raised before the loop (missing keys, arguments
    that are not JSON, a value that cannot be indexed or iterated), it
    leaves no region; raised in a turn of the loop, it leaves the regions
    of the elements converted before that turn, in order. Either way the
    error is printed once. *)
Theorem parse_failure_keeps_converted_prefix (response : json) (s : state) :
  (forall e, items response = Raise e ->
     parse response s =
     (Ok (mkDetections []), snd (print (ErrorParsing e) s))) /\
  (forall pre bad post dets e,
     items response = Ok (pre ++ bad :: post)%list ->
     Forall2 (fun el d => convert el = Ok d) pre dets ->
     convert bad = Raise e ->
     parse response s =
     (Ok (mkDetections dets), snd (print (ErrorParsing e) s))).
Proof.
  split.
  - intros e He. rewrite parse_returns_what_the_body_left.
    now rewrite (body_before_loop _ _ He).
  - intros pre bad post dets e Hit Hpre Hbad.
    rewrite parse_returns_what_the_body_left.
    rewrite (body_in_loop _ _ Hit).
    now rewrite (loop_stops_at_failure pre post bad e dets [] Hpre Hbad).
Qed.


(** C9: a response whose message has no [tool_calls] entry converts to
    zero regions; and on every response whatever the conversion returns a
    value: no exception leaves it. *)
Theorem conversion_never_raises :
  (forall (response : json) (msg : list (string * json)) (s : state),
     message_of response = Ok (JDict msg) ->
     assoc "tool_calls" msg = None ->
     parse response s =
     (Ok (mkDetections []), snd (print (ErrorParsing KeyError) s))) /\
  (forall (response : json) (s : state),
     exists dets s', parse response s = (Ok dets, s')).
Proof.
  split.
  - intros response msg s Hmsg Hnone.
    rewrite parse_returns_what_the_body_left.
    rewrite (body_before_loop response KeyError); [reflexivity|].
    unfold items_of, arguments_of. rewrite Hmsg. simpl. now rewrite Hnone.
  - intros response s. rewrite parse_returns_what_the_body_left.
    destruct (body_of response []) as [[u|e] dets]; eauto.
Qed.

End Conversion.

(** ** The HTTP calls *)

Lemma sent_nil (s : state) : sent [] s = s.
Proof. destruct s. unfold sent. simpl. now rewrite app_nil_r. Qed.

Lemma sent_sent (a b : list request) (s : state) :
  sent b (sent a s) = sent (a ++ b) s.
Proof. unfold sent. simpl. now rewrite <- app_assoc. Qed.

Lemma create_headers_authorization (api_key : string) (asset_id : option string) :
  create_headers api_key asset_id !! "Authorization" = Some ("Bearer " +:+ api_key).
Proof.
  unfold create_headers, update. destruct (truthy asset_id).
  - rewrite lookup_union_r; [|by simplify_map_eq]. by simplify_map_eq.
  - by simplify_map_eq.
Qed.

Lemma create_headers_asset (api_key asset_id : string) :
  asset_id <> "" ->
  create_headers api_key (Some asset_id) !! "NVCF-INPUT-ASSET-REFERENCES" = Some asset_id /\
  create_headers api_key (Some asset_id) !! "NVCF-FUNCTION-ASSET-IDS" = Some asset_id.
Proof.
  intros Hne. unfold create_headers, update.
  destruct asset_id as [|c rest]; [congruence|]. simpl.
  split; apply lookup_union_Some_l; by simplify_map_eq.
Qed.

Lemma create_headers_no_asset (api_key : string) (asset_id : option string) :
  truthy asset_id = false ->
  create_headers api_key asset_id !! "NVCF-INPUT-ASSET-REFERENCES" = None /\
  create_headers api_key asset_id !! "NVCF-FUNCTION-ASSET-IDS" = None.
Proof.
  intros Hf. unfold create_headers. rewrite Hf. split; by simplify_map_eq.
Qed.

Lemma upload_headers_no_authorization (description : string) :
  upload_headers description !! "Authorization" = None.
Proof. unfold upload_headers. by simplify_map_eq. Qed.

Lemma raise_for_status_error (r : response) (s : state) :
  400 <= status_code r < 600 ->
  raise_for_status r s = (Raise (HTTPError (status_code r)), s).
Proof.
  intros [H1 H2]. unfold raise_for_status.
  apply Z.leb_le in H1. apply Z.ltb_lt in H2. now rewrite H1, H2.
Qed.

Lemma raise_for_status_fine (r : response) (s : state) :
  ~ (400 <= status_code r < 600) ->
  raise_for_status r s = (Ok tt, s).
Proof.
  intros H. unfold raise_for_status.
  destruct (400 <=? status_code r) eqn:H1; [|reflexivity].
  destruct (status_code r <? 600) eqn:H2; [|reflexivity].
  apply Z.leb_le in H1. apply Z.ltb_lt in H2. lia.
Qed.

Lemma raise_for_status_cases (r : response) (s : state) :
  raise_for_status r s = (Raise (HTTPError (status_code r)), s) \/
  raise_for_status r s = (Ok tt, s).
Proof.
  unfold raise_for_status.
  destruct ((400 <=? status_code r) && (status_code r <? 600)); auto.
Qed.

Section Pipeline.

Variable json_loads : string -> result json.
Variable float_of_str : string -> result float.
Variable repr : json -> string.
Variable read_file : string -> result (list Byte.byte).
Variable server : list request -> request -> result response.
Variable reload_dataset : ES state unit.

Abbreviation upload := (upload_asset repr server).
Abbreviation process := (process_image repr read_file server).
Abbreviation parse := (parse_nemo_response_to_detections json_loads float_of_str).

(** C6, as the code has it: [upload_asset] makes the registration POST
    first. If that call answers with an error status (400 to 599, what
    [raise_for_status] rejects) the error is raised and no other call is
    made. Otherwise the
    bytes are PUT once to the URL the first answer gave; an error status
    there is raised too. When neither call answers with an error status,
    be it a success or a status such as 304, the function returns [str]
    of the [assetId] of the first answer. In every case each of the two
    calls is made at most once. *)
Theorem upload_asset_propagates_or_returns_id
    (image_data : list Byte.byte) (description api_key : string) (s : state) :
  let reg := register_request description api_key in
  (forall r1,
     server (requests_made s) reg = Ok r1 ->
     400 <= status_code r1 < 600 ->
     upload image_data description api_key s =
     (Raise (HTTPError (status_code r1)), sent [reg] s)) /\
  (forall r1 auth_data upload_url r2,
     server (requests_made s) reg = Ok r1 ->
     ~ (400 <= status_code r1 < 600) ->
     json_body r1 = Ok auth_data ->
     getitem auth_data "uploadUrl" = Ok upload_url ->
     let put := upload_request upload_url image_data description in
     server (requests_made s ++ [reg]) put = Ok r2 ->
     (400 <= status_code r2 < 600 ->
      upload image_data description api_key s =
      (Raise (HTTPError (status_code r2)), sent [reg; put] s)) /\
     (forall asset_id,
        ~ (400 <= status_code r2 < 600) ->
        getitem auth_data "assetId" = Ok asset_id ->
        upload image_data description api_key s =
        (Ok (py_str repr asset_id), sent [reg; put] s))).
Proof.
  intros reg. subst reg. split.
  - intros r1 H1 Hbad. unfold upload_asset, bind, send. rewrite H1.
    now rewrite (raise_for_status_error _ _ Hbad).
  - intros r1 auth_data upload_url r2 H1 Hfine Hjson Hurl put H2. subst put.
    split.
    + intros Hbad. unfold upload_asset, bind, send, lift. rewrite H1.
      rewrite (raise_for_status_fine _ _ Hfine), Hjson, Hurl.
      unfold log_request at 1. simpl requests_made. rewrite H2.
      rewrite (raise_for_status_error _ _ Hbad).
      unfold log_request. now rewrite sent_sent.
    + intros asset_id Hfine2 Hid. unfold upload_asset, bind, send, lift, ret.
      rewrite H1.
      rewrite (raise_for_status_fine _ _ Hfine), Hjson, Hurl.
      unfold log_request at 1. simpl requests_made. rewrite H2.
      rewrite (raise_for_status_fine _ _ Hfine2), Hid.
      unfold log_request. now rewrite sent_sent.
Qed.

(** The calls one [upload_asset] makes: the registration alone when it goes
    no further, else the registration and one PUT. *)
Lemma upload_asset_calls (image_data : list Byte.byte)
    (description api_key : string) (s : state) :
  exists new,
    snd (upload image_data description api_key s) = sent new s /\
    ((new = [register_request description api_key] /\
      exists e, fst (upload image_data description api_key s) = Raise e) \/
     exists upload_url,
       new = [register_request description api_key;
              upload_request upload_url image_data description]).
Proof.
  unfold upload_asset, bind, send, lift, ret.
  destruct (server (requests_made s) _) as [r1|e1]; simpl;
    [|eexists; split; [reflexivity|left; eauto]].
  destruct (raise_for_status_cases r1 (log_request (register_request description api_key) s))
    as [-> | ->]; [eexists; split; [reflexivity|left; eauto]|].
  destruct (json_body r1) as [auth_data|e2];
    [|eexists; split; [reflexivity|left; eauto]].
  destruct (getitem auth_data "uploadUrl") as [upload_url|e3];
    [|eexists; split; [reflexivity|left; eauto]].
  exists [register_request description api_key;
          upload_request upload_url image_data description].
  split; [|right; eauto].
  destruct (server _ (upload_request _ _ _)) as [r2|e4];
    [|unfold log_request; now rewrite sent_sent].
  match goal with
  | |- context [raise_for_status r2 ?s2] =>
      destruct (raise_for_status_cases r2 s2) as [-> | ->]
  end; [unfold log_request; now rewrite sent_sent|].
  destruct (getitem auth_data "assetId");
    unfold log_request; simpl; now rewrite sent_sent.
Qed.

(** The calls one [process_image] makes. The parse invocation is made
    exactly when the file was read and the upload returned an asset id. *)
Lemma process_image_calls (image_path api_key : string) (s : state) :
  exists new,
    snd (process image_path api_key s) = sent new s /\
    ((new = [] /\ exists e, read_file image_path = Raise e) \/
     (exists image_data up e,
        read_file image_path = Ok image_data /\
        upload image_data "Test Image" api_key s = (Raise e, sent up s) /\
        new = up) \/
     (exists image_data up asset_id,
        read_file image_path = Ok image_data /\
        upload image_data "Test Image" api_key s = (Ok asset_id, sent up s) /\
        new = (up ++ [parse_request api_key asset_id])%list)).
Proof.
  unfold process_image. unfold bind at 1, lift at 1.
  destruct (read_file image_path) as [image_data|e0];
    [|exists []; split; [simpl; now rewrite sent_nil|left; eauto]].
  destruct (upload_asset_calls image_data "Test Image" api_key s)
    as (up & Hup & _).
  unfold bind at 1.
  destruct (upload image_data "Test Image" api_key s) as [[asset_id|e1] s1] eqn:Hu;
    simpl in Hup; subst s1.
  - exists (up ++ [parse_request api_key asset_id])%list. split.
    + unfold bind, send, lift.
      destruct (server _ (parse_request api_key asset_id)) as [r|e2];
        [|unfold log_request; simpl; now rewrite sent_sent].
      match goal with
      | |- context [raise_for_status r ?s2] =>
          destruct (raise_for_status_cases r s2) as [-> | ->]
      end; unfold log_request; simpl; now rewrite sent_sent.
    + right; right. exists image_data, up, asset_id. auto.
  - exists up. split; [reflexivity|].
    right; left. exists image_data, up, e1. auto.
Qed.

(** C7, as the code has it: of the calls one [process_image] makes, every
    POST (the registration and the parse invocation) carries
    [Authorization: Bearer <api_key>], while the PUT of the bytes carries
    the description and content-type headers only. When the upload returns
    an asset id the last call is the parse invocation for that id, and if
    the id is not the empty string its [NVCF-INPUT-ASSET-REFERENCES] and
    [NVCF-FUNCTION-ASSET-IDS] headers both hold it. *)
Theorem posts_carry_bearer_and_asset_headers
    (image_path api_key : string) (s : state) :
  exists new,
    snd (process image_path api_key s) = sent new s /\
    (forall r, In r new ->
       (method r = POST /\
        headers r !! "Authorization" = Some ("Bearer " +:+ api_key)) \/
       (method r = PUT /\ headers r = upload_headers "Test Image")) /\
    (forall image_data asset_id,
       read_file image_path = Ok image_data ->
       fst (upload image_data "Test Image" api_key s) = Ok asset_id ->
       last new = Some (parse_request api_key asset_id) /\
       (asset_id <> "" ->
        headers (parse_request api_key asset_id)
          !! "NVCF-INPUT-ASSET-REFERENCES" = Some asset_id /\
        headers (parse_request api_key asset_id)
          !! "NVCF-FUNCTION-ASSET-IDS" = Some asset_id)).
Proof.
  destruct (process_image_calls image_path api_key s) as (new & Hs & Hshape).
  exists new. split; [exact Hs|]. split.
  - intros r Hr.
    assert (Hup : forall image_data up res,
              upload image_data "Test Image" api_key s = (res, sent up s) ->
              In r up ->
              (method r = POST /\
               headers r !! "Authorization" = Some ("Bearer " +:+ api_key)) \/
              (method r = PUT /\ headers r = upload_headers "Test Image")).
    { intros image_data up res Hu Hin.
      destruct (upload_asset_calls image_data "Test Image" api_key s)
        as (up' & Hup' & Hcases).
      rewrite Hu in Hup'. simpl in Hup'.
      assert (up = up').
      { apply (f_equal requests_made) in Hup'. simpl in Hup'.
        now apply app_inv_head in Hup'. }
      subst up'.
      destruct Hcases as [[-> _] | [upload_url ->]].
      - destruct Hin as [<- | []]. left. split; [reflexivity|].
        apply create_headers_authorization.
      - destruct Hin as [<- | [<- | []]].
        + left. split; [reflexivity|]. apply create_headers_authorization.
        + right. split; reflexivity. }
    destruct Hshape as [[-> _] | [(d & up & e & _ & Hu & ->) | (d & up & a & _ & Hu & ->)]].
    + destruct Hr.
    + eapply Hup; eauto.
    + apply in_app_or in Hr. destruct Hr as [Hr | [<- | []]].
      * eapply Hup; eauto.
      * left. split; [reflexivity|]. apply create_headers_authorization.
  - intros image_data asset_id Hread Hok.
    split; [|intros Hne; now apply create_headers_asset].
    destruct Hshape as [[_ [e He]] | [(d & up & e & Hd & Hu & _) | (d & up & a & Hd & Hu & ->)]].
    + congruence.
    + rewrite Hd in Hread. injection Hread as ->. rewrite Hu in Hok. discriminate.
    + rewrite Hd in Hread. injection Hread as ->. rewrite Hu in Hok.
      simpl in Hok. injection Hok as ->. apply last_snoc.
Qed.

(** *** One turn of the batch loop *)

Abbreviation item := (process_item json_loads float_of_str repr read_file server).
Abbreviation batch := (run_nemo_parse json_loads float_of_str repr read_file server).

Lemma parse_touches_stdout_only (response : json) (s : state) :
  exists dets out,
    parse response s =
    (Ok dets,
     mkState (requests_made s) (stdout s ++ out) (all_detections s)
             (prompt_tokens s) (completion_tokens s) (total_tokens s) (ds s)).
Proof.
  rewrite parse_returns_what_the_body_left.
  destruct (parse_body json_loads float_of_str response []) as [[u|e] dets].
  - exists (mkDetections dets), []. destruct s; simpl. now rewrite app_nil_r.
  - exists (mkDetections dets), [ErrorParsing e]. reflexivity.
Qed.

Lemma usage_of_raises (response : json) (e : exn) :
  usage_of response = Raise e ->
  dict_get response "usage" (JDict []) = Raise e \/
  exists usage, dict_get response "usage" (JDict []) = Ok usage /\
                dict_get usage "prompt_tokens" (JInt 0) = Raise e.
Proof.
  unfold usage_of.
  destruct (dict_get response "usage" (JDict [])) as [usage|e0]; simpl.
  - intros H. right. exists usage. split; [reflexivity|].
    destruct usage; simpl in *; try congruence.
    repeat match goal with
           | H : context [match assoc ?k ?d with _ => _ end] |- _ =>
               destruct (assoc k d); simpl in H
           end; discriminate.
  - intros [= ->]. now left.
Qed.

(** An exception on the way to the response: nothing was appended yet, so
    the handler's entries are the item's only ones. *)
Lemma item_failed_before_response (api_key image_path : string) (s s1 : state) (e : exn) :
  process image_path api_key s = (Raise e, s1) ->
  item api_key image_path s =
  (Ok tt, recorded (mkDetections []) (JInt 0) (JInt 0) (JInt 0)
            (snd (print (ErrorProcessing image_path e) s1))).
Proof.
  intros Hp. unfold process_item, try_except, item_body. unfold bind at 1.
  rewrite Hp. reflexivity.
Qed.

Lemma item_succeeded (api_key image_path : string) (s s1 s2 : state)
    (response : json) (dets : Detections) (p c t : json) :
  process image_path api_key s = (Ok response, s1) ->
  parse response s1 = (Ok dets, s2) ->
  usage_of response = Ok (p, c, t) ->
  item api_key image_path s = (Ok tt, recorded dets p c t s2).
Proof.
  intros Hp Hparse Hu. unfold process_item, try_except, item_body.
  unfold bind at 1. rewrite Hp. unfold bind at 1. rewrite Hparse.
  unfold usage_of in Hu. run.
  destruct (dict_get response "usage" (JDict [])) as [usage|]; simpl in *; [|discriminate].
  destruct (dict_get usage "prompt_tokens" (JInt 0)) as [p'|]; simpl in *; [|discriminate].
  destruct (dict_get usage "completion_tokens" (JInt 0)) as [c'|]; simpl in *; [|discriminate].
  destruct (dict_get usage "total_tokens" (JInt 0)) as [t'|]; simpl in *; [|discriminate].
  injection Hu as -> -> ->. reflexivity.
Qed.

(** An exception while reading the counters: the regions of the response
    are in [all_detections] already, and the handler appends its entries
    after them. *)
Lemma item_failed_after_append (api_key image_path : string) (s s1 s2 : state)
    (response : json) (dets : Detections) (e : exn) :
  process image_path api_key s = (Ok response, s1) ->
  parse response s1 = (Ok dets, s2) ->
  usage_of response = Raise e ->
  item api_key image_path s =
  (Ok tt, recorded (mkDetections []) (JInt 0) (JInt 0) (JInt 0)
            (snd (print (ErrorProcessing image_path e)
                    (snd (append_detections dets s2))))).
Proof.
  intros Hp Hparse Hu. unfold process_item, try_except, item_body.
  unfold bind at 1. rewrite Hp. unfold bind at 1. rewrite Hparse.
  run. destruct (usage_of_raises _ _ Hu) as [H | (usage & H1 & H2)].
  - rewrite H. reflexivity.
  - rewrite H1. simpl. rewrite H2. reflexivity.
Qed.

(** Whatever happens, a turn returns, leaves the dataset alone, appends
    one entry to each list of counters and one or two to
    [all_detections]. *)
Lemma item_effect (api_key image_path : string) (s : state) :
  exists s' extra p c t,
    item api_key image_path s = (Ok tt, s') /\
    ds s' = ds s /\
    all_detections s' = (all_detections s ++ extra)%list /\
    (length extra = 1%nat \/ length extra = 2%nat) /\
    prompt_tokens s' = (prompt_tokens s ++ [p])%list /\
    completion_tokens s' = (completion_tokens s ++ [c])%list /\
    total_tokens s' = (total_tokens s ++ [t])%list.
Proof.
  destruct (process_image_calls image_path api_key s) as (new & Hs & _).
  destruct (process image_path api_key s) as [[response|e] s1] eqn:Hp;
    simpl in Hs; subst s1.
  - destruct (parse_touches_stdout_only response (sent new s)) as (dets & out & Hparse).
    destruct (usage_of response) as [[[p c] t]|e] eqn:Hu.
    + rewrite (item_succeeded _ _ _ _ _ _ _ _ _ _ Hp Hparse Hu).
      eexists _, [dets], p, c, t. simpl. auto 10.
    + rewrite (item_failed_after_append _ _ _ _ _ _ _ _ Hp Hparse Hu).
      eexists _, [dets; mkDetections []], (JInt 0), (JInt 0), (JInt 0).
      split; [reflexivity|]. simpl. rewrite <- app_assoc. simpl. auto 10.
  - rewrite (item_failed_before_response _ _ _ _ _ Hp).
    eexists _, [mkDetections []], (JInt 0), (JInt 0), (JInt 0). simpl. auto 10.
Qed.

(** *** The whole batch *)

(** The loop returns and never writes on the dataset. Each list of
    counters gets one entry per path; [all_detections] gets at least one
    and at most two per path. *)
Lemma loop_effect (api_key : string) (paths : list string) (s : state) :
  exists s',
    for_each paths (item api_key) s = (Ok tt, s') /\
    ds s' = ds s /\
    length (prompt_tokens s') = (length (prompt_tokens s) + length paths)%nat /\
    length (completion_tokens s') = (length (completion_tokens s) + length paths)%nat /\
    length (total_tokens s') = (length (total_tokens s) + length paths)%nat /\
    (length (all_detections s) + length paths <= length (all_detections s'))%nat /\
    (length (all_detections s') <= length (all_detections s) + 2 * length paths)%nat.
Proof.
  revert s. induction paths as [|path paths IH]; intros s.
  - exists s. simpl. repeat split; lia.
  - destruct (item_effect api_key path s)
      as (s1 & extra & p & c & t & Hrun & Hds & Hd & Hlen & Hp & Hc & Ht).
    destruct (IH s1) as (s' & Hrest & Hds' & Hp' & Hc' & Ht' & Hlo & Hhi).
    exists s'. simpl. unfold bind at 1. rewrite Hrun.
    split; [exact Hrest|]. split; [congruence|].
    rewrite Hp in Hp'. rewrite Hc in Hc'. rewrite Ht in Ht'.
    rewrite Hd in Hlo, Hhi.
    rewrite !length_app in *. simpl in *.
    repeat split; try lia; destruct Hlen; lia.
Qed.

(** The counters a turn appends are those of [counters_of_turn]. *)
Lemma item_appends_counters (api_key image_path : string) (s : state) :
  let counters := counters_of_turn repr read_file server api_key image_path s in
  prompt_tokens (snd (item api_key image_path s)) =
    (prompt_tokens s ++ [fst (fst counters)])%list /\
  completion_tokens (snd (item api_key image_path s)) =
    (completion_tokens s ++ [snd (fst counters)])%list /\
  total_tokens (snd (item api_key image_path s)) =
    (total_tokens s ++ [snd counters])%list.
Proof.
  unfold counters_of_turn.
  destruct (process_image_calls image_path api_key s) as (new & Hs & _).
  destruct (process image_path api_key s) as [[response|e] s1] eqn:Hp;
    simpl in Hs; subst s1; simpl.
  - destruct (parse_touches_stdout_only response (sent new s)) as (dets & out & Hparse).
    destruct (usage_of response) as [[[p c] t]|e] eqn:Hu.
    + rewrite (item_succeeded _ _ _ _ _ _ _ _ _ _ Hp Hparse Hu). simpl. auto.
    + rewrite (item_failed_after_append _ _ _ _ _ _ _ _ Hp Hparse Hu). simpl. auto.
  - rewrite (item_failed_before_response _ _ _ _ _ Hp). simpl. auto.
Qed.

Lemma loop_appends_counters (api_key : string) (paths : list string) (s : state) :
  let expected :=
    counters_per_sample json_loads float_of_str repr read_file server
      api_key paths s in
  let s' := snd (for_each paths (item api_key) s) in
  prompt_tokens s' = (prompt_tokens s ++ map (fun x => fst (fst x)) expected)%list /\
  completion_tokens s' = (completion_tokens s ++ map (fun x => snd (fst x)) expected)%list /\
  total_tokens s' = (total_tokens s ++ map snd expected)%list.
Proof.
  revert s. induction paths as [|path paths IH]; intros s; simpl.
  - now rewrite !app_nil_r.
  - destruct (item_effect api_key path s) as (s1 & _ & _ & _ & _ & Hrun & _).
    destruct (item_appends_counters api_key path s) as (Hp & Hc & Ht).
    destruct (IH (snd (item api_key path s))) as (Hp' & Hc' & Ht').
    unfold bind at 1 2 3. rewrite Hrun in *. simpl in *.
    rewrite Hp', Hc', Ht', Hp, Hc, Ht, <- !app_assoc. auto.
Qed.

Lemma counters_per_sample_length (api_key : string) (paths : list string) (s : state) :
  length (counters_per_sample json_loads float_of_str repr read_file server
            api_key paths s) = length paths.
Proof.
  revert s. induction paths as [|path paths IH]; intros s; simpl; [reflexivity|].
  now rewrite IH.
Qed.

(** C10, as the code has it: the dataset is not written while the images
    are processed; once the loop has ended the run writes the four
    accumulated lists to [nemo_detections], [nemo_prompt_tokens],
    [nemo_completion_tokens] and [nemo_total_tokens], makes no further
    HTTP call, and leaves the file paths and every field of another name
    as they were. Each of the three token fields gets exactly one value
    per sample, in the order of the samples: the counter read off that
    sample's response, or zero when its turn failed. *)
Theorem run_writes_four_fields_after_loop (api_key : string) (s : state) :
  exists s1,
    for_each (filepath (ds s)) (item api_key) (snd (init_lists s)) = (Ok tt, s1) /\
    ds s1 = ds s /\
    batch api_key s =
    (Ok tt,
     mkState (requests_made s1) (stdout s1) (all_detections s1)
       (prompt_tokens s1) (completion_tokens s1) (total_tokens s1)
       (mkDataset (filepath (ds s))
          (<["nemo_total_tokens" := map VJson (total_tokens s1)]>
           (<["nemo_completion_tokens" := map VJson (completion_tokens s1)]>
            (<["nemo_prompt_tokens" := map VJson (prompt_tokens s1)]>
             (<["nemo_detections" := map VDetections (all_detections s1)]>
              (fields (ds s)))))))) /\
    (forall name, ~ In name written_fields ->
       fields (ds (snd (batch api_key s))) !! name = fields (ds s) !! name) /\
    (let expected :=
       counters_per_sample json_loads float_of_str repr read_file server
         api_key (filepath (ds s)) (snd (init_lists s)) in
     length expected = length (filepath (ds s)) /\
     fields (ds (snd (batch api_key s))) !! "nemo_prompt_tokens" =
       Some (map (fun x => VJson (fst (fst x))) expected) /\
     fields (ds (snd (batch api_key s))) !! "nemo_completion_tokens" =
       Some (map (fun x => VJson (snd (fst x))) expected) /\
     fields (ds (snd (batch api_key s))) !! "nemo_total_tokens" =
       Some (map (fun x => VJson (snd x)) expected)).
Proof.
  destruct (loop_effect api_key (filepath (ds s)) (snd (init_lists s)))
    as (s1 & Hloop & Hds & _).
  simpl in Hds.
  assert (Hrun : batch api_key s =
    (Ok tt,
     mkState (requests_made s1) (stdout s1) (all_detections s1)
       (prompt_tokens s1) (completion_tokens s1) (total_tokens s1)
       (mkDataset (filepath (ds s))
          (<["nemo_total_tokens" := map VJson (total_tokens s1)]>
           (<["nemo_completion_tokens" := map VJson (completion_tokens s1)]>
            (<["nemo_prompt_tokens" := map VJson (prompt_tokens s1)]>
             (<["nemo_detections" := map VDetections (all_detections s1)]>
              (fields (ds s))))))))).
  { unfold run_nemo_parse. unfold bind at 1, gets at 1.
    unfold bind at 1. unfold init_lists at 1, modify at 1.
    unfold bind at 1. simpl in Hloop. rewrite Hloop.
    unfold bind, gets, set_values, modify. simpl. now rewrite Hds. }
  exists s1. split; [exact Hloop|]. split; [exact Hds|]. split; [exact Hrun|].
  split.
  - intros name Hname. rewrite Hrun. simpl.
    unfold written_fields in Hname. simpl in Hname.
    rewrite !lookup_insert_ne; [reflexivity|..]; intros <-; apply Hname; auto.
  - destruct (loop_appends_counters api_key (filepath (ds s)) (snd (init_lists s)))
      as (Hp & Hc & Ht).
    rewrite Hloop in Hp, Hc, Ht. simpl in Hp, Hc, Ht.
    split; [apply counters_per_sample_length|].
    rewrite Hrun. simpl. rewrite Hp, Hc, Ht, !map_map.
    split; [by simplify_map_eq|]. split; by simplify_map_eq.
Qed.

(** *** Loading the package *)

Abbreviation core :=
  (nemo_retriever json_loads float_of_str repr read_file server).

(** C4: the core module binds [run_nemo_parse] and no
    [run_nemo_retriever_parse], so the import statement of the entry point
    raises [ImportError]; the package never loads, and running the
    operator ends in that error with the state untouched: no file read, no
    HTTP call, no dataset write. *)
Theorem entry_point_import_fails :
  module_attr "run_nemo_retriever_parse" core = None /\
  import_from core "run_nemo_parse" = Ok (BatchFunction batch) /\
  load_package json_loads float_of_str repr read_file server reload_dataset
    = Raise ImportError /\
  (forall (api_key : string) (s : state),
     run_operator json_loads float_of_str repr read_file server reload_dataset
       api_key s = (Raise ImportError, s)).
Proof.
  repeat split.
Qed.

End Pipeline.

(** ** The properties on the sample environments *)

Lemma parse_failure_keeps_converted_prefix_witness :
  Sample.parse Sample.no_tool_calls_response (Sample.start [] ∅) =
    (Ok (mkDetections []),
     snd (print (ErrorParsing KeyError) (Sample.start [] ∅))) /\
  Sample.parse Sample.broken_response (Sample.start [] ∅) =
    (Ok (mkDetections [Sample.title_region]),
     snd (print (ErrorParsing KeyError) (Sample.start [] ∅))).
Proof.
  split.
  - apply (proj1 (parse_failure_keeps_converted_prefix
                    Sample.json_loads Sample.float_of_str
                    Sample.no_tool_calls_response (Sample.start [] ∅))).
    reflexivity.
  - apply (proj2 (parse_failure_keeps_converted_prefix
                    Sample.json_loads Sample.float_of_str
                    Sample.broken_response (Sample.start [] ∅))
             [Sample.title_element] Sample.bare_element []).
    + reflexivity.
    + repeat constructor.
    + reflexivity.
Defined.

(** C2 as stated fails: the second element of the sample document has no
    [bbox], so the loop raises [KeyError] in its second turn, and the
    function still returns the region of the first element. *)
Lemma midway_failure_keeps_first_region :
  fst (parse_body Sample.json_loads Sample.float_of_str
         Sample.broken_response []) = Raise KeyError /\
  fst (Sample.parse Sample.broken_response (Sample.start [] ∅)) =
    Ok (mkDetections [Sample.title_region]) /\
  fst (Sample.parse Sample.broken_response (Sample.start [] ∅)) <>
    Ok (mkDetections []).
Proof.
  split; [reflexivity|]. split; [reflexivity|]. discriminate.
Qed.





Lemma conversion_never_raises_witness :
  Sample.parse Sample.no_tool_calls_response (Sample.start [] ∅) =
    (Ok (mkDetections []),
     snd (print (ErrorParsing KeyError) (Sample.start [] ∅))).
Proof.
  apply (proj1 (conversion_never_raises Sample.json_loads Sample.float_of_str)
           Sample.no_tool_calls_response [("content", JStr "")]);
    reflexivity.
Defined.

Lemma upload_asset_propagates_or_returns_id_witness :
  Sample.upload Sample.unauthorized_once Sample.image "Test Image"
      Sample.api_key (Sample.start [] ∅) =
    (Raise (HTTPError 401),
     sent [register_request "Test Image" Sample.api_key] (Sample.start [] ∅)) /\
  Sample.upload Sample.rejecting_put_server Sample.image "Test Image"
      Sample.api_key (Sample.start [] ∅) =
    (Raise (HTTPError 403),
     sent [register_request "Test Image" Sample.api_key;
           upload_request (JStr "https://assets.example/slot") Sample.image
             "Test Image"]
          (Sample.start [] ∅)) /\
  Sample.upload Sample.good_server Sample.image "Test Image"
      Sample.api_key (Sample.start [] ∅) =
    (Ok "asset-1",
     sent [register_request "Test Image" Sample.api_key;
           upload_request (JStr "https://assets.example/slot") Sample.image
             "Test Image"]
          (Sample.start [] ∅)).
Proof.
  split; [|split].
  - apply (proj1 (upload_asset_propagates_or_returns_id
                    Sample.repr Sample.unauthorized_once Sample.image
                    "Test Image" Sample.api_key (Sample.start [] ∅))
             (mkResponse 401 (Raise ValueError)));
      [reflexivity | simpl; lia].
  - apply (proj2 (upload_asset_propagates_or_returns_id
                    Sample.repr Sample.rejecting_put_server Sample.image
                    "Test Image" Sample.api_key (Sample.start [] ∅))
             (Sample.slot "asset-1")
             (JDict [("uploadUrl", JStr "https://assets.example/slot");
                     ("assetId", JStr "asset-1")])
             (JStr "https://assets.example/slot")
             (mkResponse 403 (Raise ValueError)));
      [reflexivity | simpl; lia | reflexivity | reflexivity | reflexivity
      | simpl; lia].
  - apply (proj2 (proj2 (upload_asset_propagates_or_returns_id
                    Sample.repr Sample.good_server Sample.image
                    "Test Image" Sample.api_key (Sample.start [] ∅))
             (Sample.slot "asset-1")
             (JDict [("uploadUrl", JStr "https://assets.example/slot");
                     ("assetId", JStr "asset-1")])
             (JStr "https://assets.example/slot")
             Sample.stored
             ltac:(reflexivity) ltac:(simpl; lia) ltac:(reflexivity)
             ltac:(reflexivity) ltac:(reflexivity))
             (JStr "asset-1"));
      [simpl; lia | reflexivity].
Defined.

(** C6 as stated fails: 304 is not a success status, yet a PUT answered
    with it does not make [upload_asset] raise; the asset id is
    returned. *)
Lemma not_modified_put_returns_id :
  ~ (200 <= status_code (mkResponse 304 (Raise ValueError)) < 300) /\
  Sample.not_modified_put_server
    [register_request "Test Image" Sample.api_key]
    (upload_request Sample.slot_url Sample.image "Test Image") =
    Ok (mkResponse 304 (Raise ValueError)) /\
  Sample.upload Sample.not_modified_put_server Sample.image "Test Image"
      Sample.api_key (Sample.start [] ∅) =
    (Ok "asset-1",
     sent [register_request "Test Image" Sample.api_key;
           upload_request Sample.slot_url Sample.image "Test Image"]
          (Sample.start [] ∅)).
Proof.
  split; [simpl; lia|]. split; reflexivity.
Qed.

(** An element whose [type] is a number is refused when its [Detection]
    is built. *)
Lemma numbered_type_is_refused :
  convert_element Sample.float_of_str Sample.numbered_element =
  Raise ValidationError.
Proof. reflexivity. Qed.

Lemma posts_carry_bearer_and_asset_headers_witness :
  headers (parse_request Sample.api_key "asset-1")
    !! "NVCF-INPUT-ASSET-REFERENCES" = Some "asset-1" /\
  headers (parse_request Sample.api_key "asset-1")
    !! "NVCF-FUNCTION-ASSET-IDS" = Some "asset-1".
Proof.
  destruct (posts_carry_bearer_and_asset_headers
              Sample.repr Sample.read_file Sample.good_server
              "a.jpg" Sample.api_key (Sample.start [] ∅))
    as (new & _ & _ & Hlast).
  apply (Hlast Sample.image "asset-1"); [reflexivity | reflexivity | discriminate].
Defined.

(** C7 as stated fails twice. The PUT of the bytes carries no
    [Authorization] header; and when the server hands out the empty string
    as asset id, the parse invocation carries neither asset header. *)
Lemma put_and_empty_asset_lack_headers :
  (exists put,
     requests_made (snd (Sample.process Sample.good_server "a.jpg"
                           Sample.api_key (Sample.start [] ∅))) !! 1%nat
       = Some put /\
     method put = PUT /\
     headers put !! "Authorization" = None) /\
  (exists invoke,
     requests_made (snd (Sample.process Sample.anonymous_server "a.jpg"
                           Sample.api_key (Sample.start [] ∅))) !! 2%nat
       = Some invoke /\
     url invoke = completions_url /\
     headers invoke !! "NVCF-INPUT-ASSET-REFERENCES" = None /\
     headers invoke !! "NVCF-FUNCTION-ASSET-IDS" = None).
Proof.
  split.
  - eexists. split; [reflexivity|]. split; [reflexivity|].
    apply upload_headers_no_authorization.
  - eexists. split; [reflexivity|]. split; [reflexivity|].
    now apply create_headers_no_asset.
Qed.

Lemma run_writes_four_fields_after_loop_witness :
  fields (ds (snd (Sample.batch Sample.good_server Sample.api_key
                     (Sample.start ["a.jpg"; "missing.jpg"]
                        Sample.annotated_before))))
    !! "ground_truth" = Some [VJson (JStr "invoice")] /\
  fields (ds (snd (Sample.batch Sample.good_server Sample.api_key
                     (Sample.start ["a.jpg"; "missing.jpg"]
                        Sample.annotated_before))))
    !! "nemo_prompt_tokens" = Some [VJson (JInt 12); VJson (JInt 0)].
Proof.
  destruct (run_writes_four_fields_after_loop
              Sample.json_loads Sample.float_of_str Sample.repr
              Sample.read_file Sample.good_server Sample.api_key
              (Sample.start ["a.jpg"; "missing.jpg"] Sample.annotated_before))
    as (s1 & _ & _ & _ & Hframe & _ & Hprompt & _).
  unfold Sample.batch. split.
  - rewrite (Hframe "ground_truth").
    + reflexivity.
    + unfold written_fields. simpl. intros [H|[H|[H|[H|[]]]]]; discriminate.
  - rewrite Hprompt. reflexivity.
Defined.

(** C10 as stated fails: a field that exists before the run and bears one
    of the four names is overwritten. *)
Lemma rerun_overwrites_existing_field :
  fields (ds (Sample.start ["missing.jpg"] Sample.annotated_before))
    !! "nemo_total_tokens" = Some [VJson (JInt 46)] /\
  fields (ds (snd (Sample.batch Sample.good_server Sample.api_key
                     (Sample.start ["missing.jpg"] Sample.annotated_before))))
    !! "nemo_total_tokens" = Some [VJson (JInt 0)].
Proof.
  split; reflexivity.
Qed.

(** ** Where the batch loses its alignment

    The regions of a response are appended to [all_detections] before the
    counters are read. When reading the counters raises (the response is
    not a dict, or its [usage] is not one), the handler appends a second
    entry for the same image. *)

(** C1 on the sample: one image, every call served, and a reply whose
    [usage] is [null]. The three lists of counters have one entry each
    and [all_detections], as written to [nemo_detections], has two. *)
Theorem null_usage_misaligns_detections :
  let s' := snd (Sample.batch Sample.null_usage_server Sample.api_key
                   (Sample.start ["a.jpg"] ∅)) in
  length (filepath (ds s')) = 1%nat /\
  length (all_detections s') = 2%nat /\
  length (prompt_tokens s') = 1%nat /\
  length (completion_tokens s') = 1%nat /\
  length (total_tokens s') = 1%nat /\
  fields (ds s') !! "nemo_detections" =
    Some [VDetections (mkDetections [Sample.title_region]);
          VDetections (mkDetections [])].
Proof.
  repeat split.
Qed.

(** C5 on the sample: two images, the reply for the first with a [null]
    usage. The exception of the first image is caught and the second image
    is processed, but position 0 keeps the regions of the first response,
    the empty entry of the handler lands at position 1, and the regions of
    the second image are pushed to position 2. *)
Theorem late_failure_keeps_regions_and_shifts :
  let s' := snd (Sample.batch Sample.null_usage_once Sample.api_key
                   (Sample.start ["a.jpg"; "b.jpg"] ∅)) in
  stdout s' = [ErrorProcessing "a.jpg" AttributeError] /\
  all_detections s' =
    [mkDetections [Sample.title_region]; mkDetections [];
     mkDetections [Sample.title_region]] /\
  prompt_tokens s' = [JInt 0; JInt 12] /\
  completion_tokens s' = [JInt 0; JInt 34] /\
  total_tokens s' = [JInt 0; JInt 46].
Proof.
  repeat split.
Qed.

(** C8 on the sample: the turn of an image whose reply has a [null] usage
    ends in neither of the two outcomes: it leaves the regions of the
    response and an empty entry in [all_detections], and zero counters. *)
Theorem late_failure_is_a_third_outcome :
  let s := Sample.start ["a.jpg"] ∅ in
  let s' := snd (Sample.item Sample.null_usage_server Sample.api_key "a.jpg" s) in
  all_detections s' = [mkDetections [Sample.title_region]; mkDetections []] /\
  prompt_tokens s' = [JInt 0] /\
  completion_tokens s' = [JInt 0] /\
  total_tokens s' = [JInt 0] /\
  ~ failed_outcome s s' /\
  (forall dets p c t, ~ success_outcome dets p c t s s').
Proof.
  repeat split; try reflexivity.
  - intros (H & _). discriminate H.
  - intros dets0 p c t (H & _). discriminate H.
Qed.

(** * Further properties of the code *)

(** ** More on the conversion *)

Section ConversionMore.

Variable json_loads : string -> result json.
Variable float_of_str : string -> result float.

Abbreviation convert := (convert_element float_of_str).
Abbreviation turn := (loop_turn float_of_str).
Abbreviation parse := (parse_nemo_response_to_detections json_loads float_of_str).
Abbreviation items := (items_of json_loads).
Abbreviation body_of := (parse_body json_loads float_of_str).

Lemma convert_ok_fields (elem : json) (d : Detection) :
  convert elem = Ok d ->
  exists v, has_fields float_of_str elem v /\ d = region v.
Proof.
  unfold convert_element.
  destruct (coord float_of_str elem "xmin") as [x|] eqn:Hx; simpl; [|discriminate].
  destruct (coord float_of_str elem "ymin") as [y|] eqn:Hy; simpl; [|discriminate].
  destruct (coord float_of_str elem "xmax") as [X|] eqn:HX; simpl; [|discriminate].
  destruct (coord float_of_str elem "ymax") as [Y|] eqn:HY; simpl; [|discriminate].
  destruct (getitem elem "type") as [ty|] eqn:Hty; simpl; [|discriminate].
  destruct (getitem elem "text") as [tx|] eqn:Htx; simpl; [|discriminate].
  intros Hnew. exists (mkView ty tx x y X Y).
  unfold has_fields, valid_label, region. simpl.
  destruct ty; simpl in Hnew; try discriminate; injection Hnew as <-;
    eauto 12.
Qed.

Lemma loop_step (el : json) (elems : list json) (acc : list Detection) :
  for_each (el :: elems) turn acc =
  match convert el with
  | Ok d => for_each elems turn (acc ++ [d])%list
  | Raise e => (Raise e, acc)
  end.
Proof.
  simpl. unfold bind at 1. unfold loop_turn at 1. unfold bind, lift, modify.
  destruct (convert el); reflexivity.
Qed.

(** What the loop leaves in [detections]: the regions of a run of elements
    from the first one on, which is all of them exactly when the loop
    returns, and stops short at the element that raised otherwise. *)
Lemma loop_leaves_prefix (elems : list json) (acc : list Detection) :
  exists dets,
    snd (for_each elems turn acc) = (acc ++ dets)%list /\
    Forall2 (fun el d => convert el = Ok d) (take (length dets) elems) dets /\
    (fst (for_each elems turn acc) = Ok tt -> length dets = length elems) /\
    (forall e, fst (for_each elems turn acc) = Raise e ->
       exists bad, elems !! length dets = Some bad /\ convert bad = Raise e).
Proof.
  revert acc. induction elems as [|el elems IH]; intros acc.
  - exists []. simpl. rewrite app_nil_r. repeat split; [constructor|discriminate].
  - rewrite loop_step. destruct (convert el) as [d|e0] eqn:Hel.
    + destruct (IH (acc ++ [d])%list) as (dets & Hs & Hpre & Hok & Hbad).
      exists (d :: dets). simpl.
      split; [rewrite Hs; now rewrite <- app_assoc|].
      split; [constructor; assumption|].
      split; [intros H; f_equal; auto|]. exact Hbad.
    + exists []. simpl. rewrite app_nil_r.
      repeat split; [constructor|discriminate|].
      intros e [= <-]. eauto.
Qed.

Lemma string_item_fails (t : string) : convert (JStr t) = Raise TypeError.
Proof. reflexivity. Qed.

Lemma loop_over_strings (l : list json) :
  Forall (fun x => exists t, x = JStr t) l ->
  snd (for_each l turn []) = [].
Proof.
  intros H. destruct H as [|x l [t ->] _]; [reflexivity|].
  rewrite loop_step. now rewrite string_item_fails.
Qed.

Lemma chars_are_strings (t : string) :
  Forall (fun x => exists c, x = JStr c) (chars t).
Proof. induction t; simpl; constructor; eauto. Qed.

Lemma printed_differs (l : line) (s : state) : snd (print l s) <> s.
Proof.
  intros H. apply (f_equal stdout) in H. simpl in H.
  apply (f_equal length) in H. rewrite length_app in H. simpl in H. lia.
Qed.

Lemma all_convert_gives_regions (elems : list json) :
  Forall (fun el => exists d, convert el = Ok d) elems ->
  exists dets, Forall2 (fun el d => convert el = Ok d) elems dets.
Proof.
  induction 1 as [|el elems [d Hd] _ [dets IH]].
  - exists []. constructor.
  - exists (d :: dets). now constructor.
Qed.

(** X1: one element is converted exactly when it has a [type] that is a
    string or null, a [text], and a [bbox] whose four corners pass
    [float()], and the region is then the one computed from those six
    values; anything else raises. *)
Theorem element_converts_iff_well_formed (elem : json) (d : Detection) :
  convert elem = Ok d <->
  exists v, has_fields float_of_str elem v /\ d = region v.
Proof.
  split.
  - apply convert_ok_fields.
  - intros (v & Hv & ->). now apply has_fields_convert.
Qed.

(** X2: whenever the code reaches the element loop, the regions it returns
    are the conversions of the first elements of the list, position by
    position: never more regions than elements, never a region out of
    place. *)
Theorem returned_regions_convert_a_prefix
    (response : json) (elems : list json) (s : state) :
  items response = Ok elems ->
  exists dets,
    fst (parse response s) = Ok (mkDetections dets) /\
    (length dets <= length elems)%nat /\
    Forall2 (fun el d => convert el = Ok d) (take (length dets) elems) dets.
Proof.
  intros Hit.
  rewrite parse_returns_what_the_body_left, (body_in_loop _ _ _ _ Hit).
  destruct (loop_leaves_prefix elems []) as (dets & Hs & Hpre & _).
  exists dets.
  destruct (for_each elems turn []) as [[u|e] l]; simpl in Hs; subst l;
    (split; [reflexivity|]); (split; [|exact Hpre]);
    apply Forall2_length in Hpre; rewrite length_take in Hpre; lia.
Qed.

(** X3: the conversion prints a line exactly when something failed: the
    state comes back unchanged if and only if the code reached the loop
    and every element converted. *)
Theorem conversion_is_silent_iff_all_converted (response : json) (s : state) :
  snd (parse response s) = s <->
  exists elems,
    items response = Ok elems /\
    Forall (fun el => exists d, convert el = Ok d) elems.
Proof.
  rewrite parse_returns_what_the_body_left. split.
  - intros Hs. destruct (items response) as [elems|e] eqn:Hit.
    + exists elems. split; [reflexivity|].
      rewrite (body_in_loop _ _ _ _ Hit) in Hs.
      destruct (loop_leaves_prefix elems []) as (dets & _ & Hpre & Hok & _).
      destruct (for_each elems turn []) as [[[]|e] l]; simpl in Hs.
      * rewrite (Hok eq_refl), firstn_all in Hpre.
        clear -Hpre. induction Hpre; constructor; eauto.
      * now apply printed_differs in Hs.
    + rewrite (body_before_loop _ _ _ _ Hit) in Hs. simpl in Hs.
      now apply printed_differs in Hs.
  - intros (elems & Hit & Hall).
    destruct (all_convert_gives_regions _ Hall) as (dets & Hdets).
    rewrite (body_in_loop _ _ _ _ Hit).
    now rewrite (loop_converts_all _ _ _ [] Hdets).
Qed.

(** X4: when the first entry of the decoded arguments is an object or a
    string instead of a list of elements, the loop walks its keys or its
    characters, fails on the first of them, and the conversion returns no
    region. *)
Theorem object_or_string_for_elements_gives_no_region
    (response : json) (args : string) (doc x : json) (s : state) :
  arguments_of response = Ok (JStr args) ->
  json_loads args = Ok doc ->
  getitem0 doc = Ok x ->
  (exists d, x = JDict d) \/ (exists t, x = JStr t) ->
  fst (parse response s) = Ok (mkDetections []).
Proof.
  intros Hargs Hloads H0 Hx.
  assert (Hit : exists l, items response = Ok l /\
                          Forall (fun y => exists t, y = JStr t) l).
  { unfold items_of. rewrite Hargs. simpl. rewrite Hloads. simpl. rewrite H0.
    simpl. destruct Hx as [[d ->] | [t ->]]; simpl.
    - eexists. split; [reflexivity|]. apply Forall_map.
      apply Forall_forall. intros [k v] _. simpl. eauto.
    - eexists. split; [reflexivity|]. apply chars_are_strings. }
  destruct Hit as (l & Hit & Hl).
  rewrite parse_returns_what_the_body_left, (body_in_loop _ _ _ _ Hit).
  pose proof (loop_over_strings l Hl) as Hs.
  destruct (for_each l turn []) as [[u|e] dets]; simpl in Hs; now subst.
Qed.

(** X5: only the first entry of [choices] is read: further choices change
    neither the regions nor what is printed. *)
Theorem only_first_choice_is_read
    (d : list (string * json)) (c : json) (more : list json) (s : state) :
  assoc "choices" d = Some (JList (c :: more)) ->
  parse (JDict d) s = parse (JDict [("choices", JList [c])]) s.
Proof.
  intros H.
  assert (Ha : arguments_of (JDict d) =
               arguments_of (JDict [("choices", JList [c])])).
  { unfold arguments_of, message_of. simpl. now rewrite H. }
  unfold parse_nemo_response_to_detections, parse_body. now rewrite Ha.
Qed.

End ConversionMore.

(** ** More on the calls and on the batch *)

Lemma readable_counters (j : json) :
  counters_readable j -> exists p c t, usage_of j = Ok (p, c, t).
Proof.
  intros (d & -> & [Hnone | (u & Hu)]); unfold usage_of; simpl.
  - rewrite Hnone. simpl. eauto.
  - rewrite Hu. simpl.
    destruct (assoc "prompt_tokens" u), (assoc "completion_tokens" u),
             (assoc "total_tokens" u); simpl; eauto.
Qed.

Lemma base_header_is_not_an_asset_header (api_key h v : string) :
  create_headers api_key None !! h = Some v ->
  h = "Authorization" \/ h = "Accept".
Proof.
  unfold create_headers. simpl. intros H.
  apply lookup_insert_Some in H. destruct H as [[<- _] | [_ H]]; [auto|].
  apply lookup_singleton_Some in H. destruct H as [<- _]. auto.
Qed.

Section PipelineMore.

Variable json_loads : string -> result json.
Variable float_of_str : string -> result float.
Variable repr : json -> string.
Variable read_file : string -> result (list Byte.byte).
Variable server : list request -> request -> result response.

Abbreviation upload := (upload_asset repr server).
Abbreviation process := (process_image repr read_file server).
Abbreviation parse := (parse_nemo_response_to_detections json_loads float_of_str).
Abbreviation item := (process_item json_loads float_of_str repr read_file server).
Abbreviation batch := (run_nemo_parse json_loads float_of_str repr read_file server).

Lemma sent_inj (a b : list request) (s : state) : sent a s = sent b s -> a = b.
Proof.
  intros H. apply (f_equal requests_made) in H. simpl in H.
  now apply app_inv_head in H.
Qed.

(** A returning [upload_asset] has made both calls. *)
Lemma upload_calls_shape (image_data : list Byte.byte)
    (description api_key : string) (s : state) (res : result string)
    (up : list request) :
  upload image_data description api_key s = (res, sent up s) ->
  (up = [register_request description api_key] /\ exists e, res = Raise e) \/
  (exists upload_url,
     up = [register_request description api_key;
           upload_request upload_url image_data description]).
Proof.
  intros Hu.
  destruct (upload_asset_calls repr server image_data description api_key s)
    as (up' & Hup' & Hcases).
  rewrite Hu in Hup', Hcases. simpl in Hup', Hcases.
  apply sent_inj in Hup'. subst up'. exact Hcases.
Qed.

(** What a returning [process_image] went through. *)
Lemma process_image_ok (image_path api_key : string) (s s1 : state)
    (response : json) :
  process image_path api_key s = (Ok response, s1) ->
  exists image_data upload_url asset_id answer,
    let up := [register_request "Test Image" api_key;
               upload_request upload_url image_data "Test Image"] in
    read_file image_path = Ok image_data /\
    upload image_data "Test Image" api_key s = (Ok asset_id, sent up s) /\
    server (requests_made s ++ up) (parse_request api_key asset_id) = Ok answer /\
    ~ (400 <= status_code answer < 600) /\
    json_body answer = Ok response /\
    s1 = sent (up ++ [parse_request api_key asset_id]) s.
Proof.
  unfold process_image. unfold bind at 1, lift at 1.
  destruct (read_file image_path) as [image_data|e0]; [|discriminate].
  destruct (upload_asset_calls repr server image_data "Test Image" api_key s)
    as (up & Hup & _).
  unfold bind at 1.
  destruct (upload image_data "Test Image" api_key s) as [[asset_id|e1] s0] eqn:Hu;
    simpl in Hup; subst s0; [|discriminate].
  destruct (upload_calls_shape _ _ _ _ _ _ Hu) as [[_ [e He]] | [upload_url ->]];
    [discriminate|].
  unfold bind, send, lift. simpl requests_made.
  destruct (server _ (parse_request api_key asset_id)) as [answer|e2] eqn:Hsrv;
    [|discriminate].
  unfold raise_for_status.
  destruct ((400 <=? status_code answer) && (status_code answer <? 600)) eqn:Hst;
    simpl; [discriminate|].
  destruct (json_body answer) as [j|e3] eqn:Hj; [|discriminate].
  intros [= <- <-].
  exists image_data, upload_url, asset_id, answer. simpl.
  split; [reflexivity|]. split; [exact Hu|]. split; [exact Hsrv|].
  split; [|split; [exact Hj|]].
  - intros [H1 H2]. apply Z.leb_le in H1. apply Z.ltb_lt in H2.
    rewrite H1, H2 in Hst. discriminate.
  - unfold log_request. now rewrite sent_sent.
Qed.

(** The three ways one turn of the batch loop can go. *)
Lemma item_cases (api_key image_path : string) (s : state) :
  exists new,
    snd (process image_path api_key s) = sent new s /\
    ((exists e,
        fst (process image_path api_key s) = Raise e /\
        item api_key image_path s =
        (Ok tt, recorded (mkDetections []) (JInt 0) (JInt 0) (JInt 0)
                  (snd (print (ErrorProcessing image_path e) (sent new s))))) \/
     (exists response dets p c t,
        fst (process image_path api_key s) = Ok response /\
        usage_of response = Ok (p, c, t) /\
        fst (parse response (sent new s)) = Ok dets /\
        item api_key image_path s =
        (Ok tt, recorded dets p c t (snd (parse response (sent new s))))) \/
     (exists response dets e,
        fst (process image_path api_key s) = Ok response /\
        usage_of response = Raise e /\
        fst (parse response (sent new s)) = Ok dets /\
        item api_key image_path s =
        (Ok tt, recorded (mkDetections []) (JInt 0) (JInt 0) (JInt 0)
                  (snd (print (ErrorProcessing image_path e)
                          (snd (append_detections dets
                                  (snd (parse response (sent new s)))))))))).
Proof.
  destruct (process_image_calls repr read_file server image_path api_key s)
    as (new & Hs & _).
  exists new. split; [exact Hs|].
  destruct (process image_path api_key s) as [[response|e] s1] eqn:Hp;
    simpl in Hs; subst s1; simpl.
  - destruct (parse_touches_stdout_only json_loads float_of_str response (sent new s))
      as (dets & out & Hparse).
    destruct (usage_of response) as [[[p c] t]|e] eqn:Hu.
    + right; left. exists response, dets, p, c, t.
      rewrite (item_succeeded _ _ _ _ _ _ _ _ _ _ _ _ _ _ _ Hp Hparse Hu).
      rewrite Hparse. auto.
    + right; right. exists response, dets, e.
      rewrite (item_failed_after_append _ _ _ _ _ _ _ _ _ _ _ _ _ Hp Hparse Hu).
      rewrite Hparse. auto.
  - left. exists e.
    rewrite (item_failed_before_response _ _ _ _ _ _ _ _ _ _ Hp). auto.
Qed.

(** *** Headers and calls *)

(** X6: giving [create_headers] an asset id never drops or changes a
    header it sets without one; it only adds, so the headers number two
    without a (non-empty) asset id and five with one. *)
Theorem asset_headers_extend_base_headers (api_key : string) (asset_id : option string) :
  (forall h v,
     create_headers api_key None !! h = Some v ->
     create_headers api_key asset_id !! h = Some v) /\
  size (create_headers api_key asset_id) = (if truthy asset_id then 5 else 2)%nat.
Proof.
  split.
  - intros h v H. pose proof (base_header_is_not_an_asset_header _ _ _ H) as Hh.
    unfold create_headers in *. simpl in H.
    destruct (truthy asset_id); [|exact H].
    unfold update. rewrite lookup_union_r; [exact H|].
    destruct Hh as [-> | ->]; by simplify_map_eq.
  - destruct asset_id as [[|c rest]|]; reflexivity.
Qed.

(** X7: [upload_asset] returns an id only if both calls were answered
    without an error status and the first answer was a JSON object with
    [uploadUrl] and [assetId]; it has then made exactly the two calls, the
    PUT going to that [uploadUrl], and the id is [str] of that
    [assetId]. *)
Theorem upload_returns_only_after_both_calls
    (image_data : list Byte.byte) (description api_key asset_id : string)
    (s s' : state) :
  upload image_data description api_key s = (Ok asset_id, s') ->
  exists r1 auth_data upload_url r2 v,
    let reg := register_request description api_key in
    let put := upload_request upload_url image_data description in
    server (requests_made s) reg = Ok r1 /\
    ~ (400 <= status_code r1 < 600) /\
    json_body r1 = Ok auth_data /\
    getitem auth_data "uploadUrl" = Ok upload_url /\
    server (requests_made s ++ [reg]) put = Ok r2 /\
    ~ (400 <= status_code r2 < 600) /\
    getitem auth_data "assetId" = Ok v /\
    asset_id = py_str repr v /\
    s' = sent [reg; put] s.
Proof.
  intros Hu.
  unfold upload_asset, bind, send, lift, raise_for_status, raise, ret in Hu.
  destruct (server (requests_made s) (register_request description api_key))
    as [r1|] eqn:H1; [|discriminate].
  destruct ((400 <=? status_code r1) && (status_code r1 <? 600)) eqn:Hst1;
    [discriminate|].
  destruct (json_body r1) as [auth_data|] eqn:Hj; [|discriminate].
  destruct (getitem auth_data "uploadUrl") as [upload_url|] eqn:Hurl; [|discriminate].
  simpl requests_made in Hu.
  destruct (server (requests_made s ++ [register_request description api_key])
              (upload_request upload_url image_data description))
    as [r2|] eqn:H2; [|discriminate].
  destruct ((400 <=? status_code r2) && (status_code r2 <? 600)) eqn:Hst2;
    [discriminate|].
  destruct (getitem auth_data "assetId") as [v|] eqn:Hid; [|discriminate].
  injection Hu as <- <-. exists r1, auth_data, upload_url, r2, v. simpl.
  repeat split; try assumption; try reflexivity.
  - intros [A B]. apply Z.leb_le in A. apply Z.ltb_lt in B.
    rewrite A, B in Hst1. discriminate.
  - intros [A B]. apply Z.leb_le in A. apply Z.ltb_lt in B.
    rewrite A, B in Hst2. discriminate.
  - unfold log_request. now rewrite sent_sent.
Qed.

(** X8: the [assetId] is looked up only after the bytes were sent: when
    the registration answer has an [uploadUrl] but no [assetId], both
    calls are made and the upload accepted before the missing key is
    raised. *)
Theorem missing_asset_id_raises_after_upload
    (image_data : list Byte.byte) (description api_key : string) (s : state)
    (r1 r2 : response) (auth_data upload_url : json) (e : exn) :
  let reg := register_request description api_key in
  let put := upload_request upload_url image_data description in
  server (requests_made s) reg = Ok r1 ->
  ~ (400 <= status_code r1 < 600) ->
  json_body r1 = Ok auth_data ->
  getitem auth_data "uploadUrl" = Ok upload_url ->
  server (requests_made s ++ [reg]) put = Ok r2 ->
  ~ (400 <= status_code r2 < 600) ->
  getitem auth_data "assetId" = Raise e ->
  upload image_data description api_key s = (Raise e, sent [reg; put] s).
Proof.
  intros reg put H1 Hf1 Hj Hurl H2 Hf2 Hid. subst reg put.
  unfold upload_asset, bind, send, lift. rewrite H1.
  rewrite (raise_for_status_fine _ _ Hf1), Hj, Hurl.
  unfold log_request at 1. simpl requests_made. rewrite H2.
  rewrite (raise_for_status_fine _ _ Hf2), Hid.
  unfold log_request. now rewrite sent_sent.
Qed.

(** X9: [process_image] makes its calls in one fixed order, registration,
    upload, parse invocation, each at most once and none after a failure:
    the calls made are always the first ones of that sequence, and all
    three when it returns. *)
Theorem process_image_calls_in_order (image_path api_key : string) (s : state) :
  exists new upload_url image_data asset_id,
    let all := [register_request "Test Image" api_key;
                upload_request upload_url image_data "Test Image";
                parse_request api_key asset_id] in
    snd (process image_path api_key s) = sent new s /\
    new `prefix_of` all /\
    (forall response, fst (process image_path api_key s) = Ok response ->
       new = all).
Proof.
  destruct (process_image_calls repr read_file server image_path api_key s)
    as (new & Hs & Hshape).
  destruct Hshape as [[-> [e He]] | [(d & up & e & Hd & Hu & ->) | (d & up & a & Hd & Hu & ->)]].
  - exists [], JNull, [], "". simpl. split; [exact Hs|].
    split; [apply prefix_nil|].
    intros response Hr. unfold process_image, bind, lift in Hr.
    rewrite He in Hr. discriminate.
  - assert (Hfail : forall response,
              fst (process image_path api_key s) <> Ok response).
    { intros response. unfold process_image. unfold bind at 1, lift at 1.
      rewrite Hd. unfold bind at 1. rewrite Hu. discriminate. }
    destruct (upload_calls_shape _ _ _ _ _ _ Hu) as [[-> _] | [upload_url ->]].
    + exists [register_request "Test Image" api_key], JNull, [], "". simpl.
      split; [exact Hs|]. split; [now eexists|].
      intros response Hr. now apply Hfail in Hr.
    + eexists _, upload_url, d, "". simpl.
      split; [exact Hs|]. split; [now eexists|].
      intros response Hr. now apply Hfail in Hr.
  - destruct (upload_calls_shape _ _ _ _ _ _ Hu) as [[_ [e He]] | [upload_url ->]];
      [discriminate|].
    eexists _, upload_url, d, a. simpl.
    split; [exact Hs|]. split; [reflexivity|]. reflexivity.
Qed.

(** X10: the registration is given 30 seconds and the upload 300; the
    parse invocation is the one call made without a timeout. *)
Theorem only_parse_invocation_has_no_timeout
    (image_path api_key : string) (s : state) :
  exists new,
    snd (process image_path api_key s) = sent new s /\
    (forall r, In r new ->
       (r = register_request "Test Image" api_key /\ timeout r = Some 30) \/
       (method r = PUT /\ timeout r = Some 300) \/
       ((exists asset_id, r = parse_request api_key asset_id) /\
        timeout r = None)).
Proof.
  destruct (process_image_calls repr read_file server image_path api_key s)
    as (new & Hs & Hshape).
  exists new. split; [exact Hs|]. intros r Hr.
  assert (Hup : forall d up res,
            upload d "Test Image" api_key s = (res, sent up s) -> In r up ->
            (r = register_request "Test Image" api_key /\ timeout r = Some 30) \/
            (method r = PUT /\ timeout r = Some 300) \/
            ((exists asset_id, r = parse_request api_key asset_id) /\
             timeout r = None)).
  { intros d up res Hu Hin.
    destruct (upload_calls_shape _ _ _ _ _ _ Hu) as [[-> _] | [upload_url ->]].
    - destruct Hin as [<- | []]. auto.
    - destruct Hin as [<- | [<- | []]]; auto. }
  destruct Hshape as [[-> _] | [(d & up & e & _ & Hu & ->) | (d & up & a & _ & Hu & ->)]].
  - destruct Hr.
  - eapply Hup; eauto.
  - apply in_app_or in Hr. destruct Hr as [Hr | [<- | []]].
    + eapply Hup; eauto.
    + right; right. split; [eauto|reflexivity].
Qed.

(** X11: what [process_image] returns is the JSON body of the answer to
    the parse invocation, an answer without an error status; by then
    exactly three calls were made, the last one the parse invocation. *)
Theorem response_is_body_of_parse_invocation
    (image_path api_key : string) (s : state) (response : json) :
  fst (process image_path api_key s) = Ok response ->
  exists before invoke answer,
    requests_made (snd (process image_path api_key s)) =
      (requests_made s ++ before ++ [invoke])%list /\
    length before = 2%nat /\
    url invoke = completions_url /\
    server (requests_made s ++ before) invoke = Ok answer /\
    ~ (400 <= status_code answer < 600) /\
    json_body answer = Ok response.
Proof.
  intros Hr.
  destruct (process image_path api_key s) as [res s1] eqn:Hp.
  simpl in Hr. subst res.
  destruct (process_image_ok _ _ _ _ _ Hp)
    as (d & upload_url & a & answer & _ & _ & Hsrv & Hfine & Hj & ->).
  exists [register_request "Test Image" api_key;
          upload_request upload_url d "Test Image"],
         (parse_request api_key a), answer.
  simpl. auto 10.
Qed.

(** *** One image *)

Lemma parse_keeps_all_but_stdout (response : json) (s : state) :
  exists out,
    (length out <= 1)%nat /\
    snd (parse response s) =
    mkState (requests_made s) (stdout s ++ out) (all_detections s)
            (prompt_tokens s) (completion_tokens s) (total_tokens s) (ds s).
Proof.
  rewrite parse_returns_what_the_body_left.
  destruct (parse_body json_loads float_of_str response []) as [[u|e] dets].
  - exists []. split; [simpl; lia|]. destruct s; simpl. now rewrite app_nil_r.
  - exists [ErrorParsing e]. split; [simpl; lia|]. reflexivity.
Qed.

Lemma process_calls_bound (image_path api_key : string) (s : state) (new : list request) :
  snd (process image_path api_key s) = sent new s -> (length new <= 3)%nat.
Proof.
  intros Hn.
  destruct (process_image_calls repr read_file server image_path api_key s)
    as (new' & Hs & Hshape).
  rewrite Hn in Hs. apply sent_inj in Hs. subst new'.
  destruct Hshape as [[-> _] | [(d & up & e & _ & Hu & ->) | (d & up & a & _ & Hu & ->)]].
  - simpl; lia.
  - destruct (upload_calls_shape _ _ _ _ _ _ Hu) as [[-> _] | [u ->]]; simpl; lia.
  - destruct (upload_calls_shape _ _ _ _ _ _ Hu) as [[-> _] | [u ->]]; simpl; lia.
Qed.

Lemma registration_error_stops_process
    (image_path api_key : string) (s : state) (image_data : list Byte.byte)
    (r1 : response) :
  read_file image_path = Ok image_data ->
  server (requests_made s) (register_request "Test Image" api_key) = Ok r1 ->
  400 <= status_code r1 < 600 ->
  process image_path api_key s =
  (Raise (HTTPError (status_code r1)),
   sent [register_request "Test Image" api_key] s).
Proof.
  intros Hread H1 Hbad. unfold process_image. unfold bind at 1, lift at 1.
  rewrite Hread. unfold bind at 1. unfold upload_asset, bind, send.
  rewrite H1. now rewrite (raise_for_status_error _ _ Hbad).
Qed.

(** X12: an image that cannot be read costs no HTTP call: its turn prints
    the error, appends the empty and zero values and returns. *)
Theorem unreadable_image_recorded_without_calls
    (api_key image_path : string) (s : state) (e : exn) :
  read_file image_path = Raise e ->
  item api_key image_path s =
  (Ok tt, recorded (mkDetections []) (JInt 0) (JInt 0) (JInt 0)
            (snd (print (ErrorProcessing image_path e) s))) /\
  requests_made (snd (item api_key image_path s)) = requests_made s.
Proof.
  intros Hread.
  assert (Hp : process image_path api_key s = (Raise e, s)).
  { unfold process_image, bind, lift. now rewrite Hread. }
  rewrite (item_failed_before_response _ _ _ _ _ _ _ _ _ _ Hp).
  split; reflexivity.
Qed.

(** X13: when the registration is answered with an error status (such as
    401), the turn of that image makes this one call only, prints the
    HTTP error, appends the empty and zero values and returns. *)
Theorem registration_error_recorded_after_one_call
    (api_key image_path : string) (s : state) (image_data : list Byte.byte)
    (r1 : response) :
  read_file image_path = Ok image_data ->
  server (requests_made s) (register_request "Test Image" api_key) = Ok r1 ->
  400 <= status_code r1 < 600 ->
  item api_key image_path s =
  (Ok tt, recorded (mkDetections []) (JInt 0) (JInt 0) (JInt 0)
            (snd (print (ErrorProcessing image_path (HTTPError (status_code r1)))
                    (sent [register_request "Test Image" api_key] s)))).
Proof.
  intros Hread H1 Hbad.
  now rewrite (item_failed_before_response _ _ _ _ _ _ _ _ _ _
                 (registration_error_stops_process _ _ _ _ _ Hread H1 Hbad)).
Qed.


(** X15: a turn leaves two entries in [all_detections] exactly when
    [process_image] returned a response on which reading the counters
    raises; in every other case it leaves one. *)
Theorem second_entry_iff_counters_unreadable
    (api_key image_path : string) (s : state) :
  let grown := (length (all_detections (snd (item api_key image_path s)))
                - length (all_detections s))%nat in
  (grown = 1%nat \/ grown = 2%nat) /\
  (grown = 2%nat <->
   exists response e,
     fst (process image_path api_key s) = Ok response /\
     usage_of response = Raise e).
Proof.
  destruct (item_cases api_key image_path s) as (new & Hs & Hcases). simpl.
  destruct Hcases as [(e & Hf & ->) | [(r & d & p & c & t & Hf & Hu & _ & ->) | (r & d & e & Hf & Hu & _ & ->)]];
    simpl.
  - rewrite length_app. simpl. split; [lia|]. split; [lia|].
    intros (r & e' & Hr & _). rewrite Hf in Hr. discriminate.
  - destruct (parse_keeps_all_but_stdout r (sent new s)) as (out & _ & ->).
    simpl. rewrite length_app. simpl. split; [lia|]. split; [lia|].
    intros (r' & e' & Hr & He). rewrite Hf in Hr. injection Hr as <-.
    rewrite Hu in He. discriminate.
  - destruct (parse_keeps_all_but_stdout r (sent new s)) as (out & _ & ->).
    simpl. rewrite !length_app. simpl. split; [lia|]. split; [|lia].
    intros _. eauto.
Qed.

(** *** The whole run *)

(** What a turn adds to the call log and to stdout. *)
Lemma item_io (api_key image_path : string) (s : state) :
  exists new out,
    (length new <= 3)%nat /\ (length out <= 2)%nat /\
    requests_made (snd (item api_key image_path s)) = (requests_made s ++ new)%list /\
    stdout (snd (item api_key image_path s)) = (stdout s ++ out)%list.
Proof.
  destruct (item_cases api_key image_path s) as (new & Hs & Hcases).
  pose proof (process_calls_bound _ _ _ _ Hs) as Hnew.
  destruct Hcases as [(e & _ & ->) | [(r & d & p & c & t & _ & _ & _ & ->) | (r & d & e & _ & _ & _ & ->)]].
  - exists new, [ErrorProcessing image_path e]. simpl. auto.
  - destruct (parse_keeps_all_but_stdout r (sent new s)) as (out & Hout & ->).
    exists new, out. simpl. repeat split; auto; lia.
  - destruct (parse_keeps_all_but_stdout r (sent new s)) as (out & Hout & ->).
    exists new, (out ++ [ErrorProcessing image_path e])%list. simpl.
    rewrite length_app, <- app_assoc. simpl. repeat split; auto; lia.
Qed.

Lemma loop_io (api_key : string) (paths : list string) (s : state) :
  exists new out,
    (length new <= 3 * length paths)%nat /\
    (length out <= 2 * length paths)%nat /\
    requests_made (snd (for_each paths (item api_key) s)) = (requests_made s ++ new)%list /\
    stdout (snd (for_each paths (item api_key) s)) = (stdout s ++ out)%list.
Proof.
  revert s. induction paths as [|path paths IH]; intros s.
  - exists [], []. simpl. rewrite !app_nil_r. repeat split; lia.
  - destruct (item_io api_key path s) as (new1 & out1 & Hn1 & Ho1 & Hr1 & Hs1).
    destruct (item_effect json_loads float_of_str repr read_file server api_key path s)
      as (s1 & _ & _ & _ & _ & Hrun & _).
    rewrite Hrun in Hr1, Hs1. simpl in Hr1, Hs1.
    destruct (IH s1) as (new2 & out2 & Hn2 & Ho2 & Hr2 & Hs2).
    exists (new1 ++ new2)%list, (out1 ++ out2)%list.
    simpl. unfold bind at 1 2. rewrite Hrun.
    rewrite Hr2, Hs2, Hr1, Hs1, !length_app, <- !app_assoc.
    repeat split; lia.
Qed.

(** With a server whose bodies let the counters be read, a turn appends
    exactly one entry to each of the four lists. *)
Lemma item_aligned (api_key image_path : string) (s : state) :
  usage_readable server ->
  exists s' d p c t,
    item api_key image_path s = (Ok tt, s') /\
    ds s' = ds s /\
    success_outcome d p c t s s'.
Proof.
  intros Hserver.
  destruct (item_cases api_key image_path s) as (new & Hs & Hcases).
  destruct Hcases as [(e & _ & ->) | [(r & d & p & c & t & _ & _ & _ & ->) | (r & d & e & Hf & Hu & _ & _)]].
  - eexists _, _, _, _, _. split; [reflexivity|]. split; [reflexivity|].
    unfold success_outcome. simpl. auto.
  - destruct (parse_keeps_all_but_stdout r (sent new s)) as (out & _ & ->).
    eexists _, d, p, c, t. split; [reflexivity|]. split; [reflexivity|].
    unfold success_outcome. simpl. auto.
  - exfalso.
    destruct (process image_path api_key s) as [res s1] eqn:Hp.
    simpl in Hf. subst res.
    destruct (process_image_ok _ _ _ _ _ Hp)
      as (d0 & u0 & a0 & answer & _ & _ & Hsrv & _ & Hj & _).
    destruct (readable_counters r (Hserver _ _ _ _ Hsrv Hj)) as (p & c & t & Hok).
    rewrite Hok in Hu. discriminate.
Qed.

Lemma loop_aligned (api_key : string) (paths : list string) (s : state) :
  usage_readable server ->
  exists s',
    for_each paths (item api_key) s = (Ok tt, s') /\
    ds s' = ds s /\
    length (all_detections s') = (length (all_detections s) + length paths)%nat /\
    length (prompt_tokens s') = (length (prompt_tokens s) + length paths)%nat /\
    length (completion_tokens s') = (length (completion_tokens s) + length paths)%nat /\
    length (total_tokens s') = (length (total_tokens s) + length paths)%nat.
Proof.
  intros Hserver. revert s. induction paths as [|path paths IH]; intros s.
  - exists s. simpl. repeat split; lia.
  - destruct (item_aligned api_key path s Hserver)
      as (s1 & d & p & c & t & Hrun & Hds & Hd & Hp & Hc & Ht).
    destruct (IH s1) as (s' & Hrest & Hds' & Hd' & Hp' & Hc' & Ht').
    exists s'. simpl. unfold bind at 1. rewrite Hrun.
    split; [exact Hrest|]. split; [congruence|].
    rewrite Hd in Hd'. rewrite Hp in Hp'. rewrite Hc in Hc'. rewrite Ht in Ht'.
    rewrite !length_app in *. simpl in *. repeat split; lia.
Qed.

(** The run, once its loop has returned. *)
Lemma batch_after_loop (api_key : string) (s s1 : state) :
  for_each (filepath (ds s)) (item api_key) (snd (init_lists s)) = (Ok tt, s1) ->
  batch api_key s =
  (Ok tt,
   mkState (requests_made s1) (stdout s1) (all_detections s1)
     (prompt_tokens s1) (completion_tokens s1) (total_tokens s1)
     (mkDataset (filepath (ds s1))
        (<["nemo_total_tokens" := map VJson (total_tokens s1)]>
         (<["nemo_completion_tokens" := map VJson (completion_tokens s1)]>
          (<["nemo_prompt_tokens" := map VJson (prompt_tokens s1)]>
           (<["nemo_detections" := map VDetections (all_detections s1)]>
            (fields (ds s1)))))))).
Proof.
  intros Hloop. unfold run_nemo_parse. unfold bind at 1, gets at 1.
  unfold bind at 1. unfold init_lists at 1, modify at 1.
  unfold bind at 1. simpl in Hloop. rewrite Hloop. reflexivity.
Qed.

(** X16: the run returns whatever the files and the servers do: no
    exception of a file read, of a call or of a reply leaves
    [run_nemo_parse]. *)
Theorem run_never_raises (api_key : string) (s : state) :
  fst (batch api_key s) = Ok tt.
Proof.
  destruct (loop_effect json_loads float_of_str repr read_file server
              api_key (filepath (ds s)) (snd (init_lists s)))
    as (s1 & Hloop & _).
  now rewrite (batch_after_loop _ _ _ Hloop).
Qed.

(** X17: after the run each of the three token fields holds exactly one
    value per sample, and [nemo_detections] holds at least one and at
    most two per sample. *)
Theorem token_fields_have_one_value_per_sample (api_key : string) (s : state) :
  let n := length (filepath (ds s)) in
  let written := fields (ds (snd (batch api_key s))) in
  exists d p c t,
    written !! "nemo_detections" = Some d /\
    written !! "nemo_prompt_tokens" = Some p /\
    written !! "nemo_completion_tokens" = Some c /\
    written !! "nemo_total_tokens" = Some t /\
    length p = n /\ length c = n /\ length t = n /\
    (n <= length d <= 2 * n)%nat.
Proof.
  destruct (loop_effect json_loads float_of_str repr read_file server
              api_key (filepath (ds s)) (snd (init_lists s)))
    as (s1 & Hloop & _ & Hp & Hc & Ht & Hlo & Hhi).
  simpl in Hp, Hc, Ht, Hlo, Hhi.
  rewrite (batch_after_loop _ _ _ Hloop). simpl.
  eexists _, _, _, _.
  split; [by simplify_map_eq|]. split; [by simplify_map_eq|].
  split; [by simplify_map_eq|]. split; [by simplify_map_eq|].
  rewrite !length_map. lia.
Qed.

(** X18: when every JSON body the server sends is an object whose
    [usage], if present, is an object, the four fields written by the run
    hold exactly one value per sample each. *)
Theorem fields_aligned_when_counters_readable (api_key : string) (s : state) :
  usage_readable server ->
  let n := length (filepath (ds s)) in
  let written := fields (ds (snd (batch api_key s))) in
  exists d p c t,
    written !! "nemo_detections" = Some d /\
    written !! "nemo_prompt_tokens" = Some p /\
    written !! "nemo_completion_tokens" = Some c /\
    written !! "nemo_total_tokens" = Some t /\
    length d = n /\ length p = n /\ length c = n /\ length t = n.
Proof.
  intros Hserver.
  destruct (loop_aligned api_key (filepath (ds s)) (snd (init_lists s)) Hserver)
    as (s1 & Hloop & _ & Hd & Hp & Hc & Ht).
  simpl in Hd, Hp, Hc, Ht.
  rewrite (batch_after_loop _ _ _ Hloop). simpl.
  eexists _, _, _, _.
  split; [by simplify_map_eq|]. split; [by simplify_map_eq|].
  split; [by simplify_map_eq|]. split; [by simplify_map_eq|].
  rewrite !length_map. auto.
Qed.

(** X19: the run only appends to the log of calls and to stdout, and
    adds at most three calls and two lines per sample: no call is
    repeated for an image that failed. *)
Theorem run_makes_at_most_three_calls_per_sample (api_key : string) (s : state) :
  let n := length (filepath (ds s)) in
  exists new out,
    requests_made (snd (batch api_key s)) = (requests_made s ++ new)%list /\
    stdout (snd (batch api_key s)) = (stdout s ++ out)%list /\
    (length new <= 3 * n)%nat /\
    (length out <= 2 * n)%nat.
Proof.
  destruct (loop_io api_key (filepath (ds s)) (snd (init_lists s)))
    as (new & out & Hn & Ho & Hr & Hs).
  destruct (loop_effect json_loads float_of_str repr read_file server
              api_key (filepath (ds s)) (snd (init_lists s)))
    as (s1 & Hloop & _).
  rewrite (batch_after_loop _ _ _ Hloop). rewrite Hloop in Hr, Hs.
  simpl in *. exists new, out. auto.
Qed.

(** X20: on a dataset without samples the run makes no call, prints
    nothing and writes the four fields with no value. *)
Theorem empty_dataset_writes_empty_fields (api_key : string) (s : state) :
  filepath (ds s) = [] ->
  batch api_key s =
  (Ok tt,
   mkState (requests_made s) (stdout s) [] [] [] []
     (mkDataset []
        (<["nemo_total_tokens" := []]>
         (<["nemo_completion_tokens" := []]>
          (<["nemo_prompt_tokens" := []]>
           (<["nemo_detections" := []]> (fields (ds s)))))))).
Proof.
  intros Hempty.
  rewrite (batch_after_loop api_key s (snd (init_lists s))).
  - simpl. now rewrite Hempty.
  - now rewrite Hempty.
Qed.

End PipelineMore.

(** ** The operator's parameters *)

(** X21: the parameters built for a programmatic call carry the key and
    the delegation flag back unchanged: [resolve_delegation] returns the
    flag that was passed and [execute] reads the key that was passed,
    while the three further parameters [execute] reads are absent.
    Without a [delegate] entry the delegation resolves to [False]. *)
Theorem call_params_round_trip (api_key : string) (delegate : bool) :
  resolve_delegation (call_params api_key delegate) = PBool delegate /\
  execute_reads (call_params api_key delegate) = (PStr api_key, PNone, PNone, PNone) /\
  (forall params : gmap string param,
     params !! "delegate" = None -> resolve_delegation params = PBool false).
Proof.
  split; [reflexivity|]. split; [reflexivity|].
  intros params H. unfold resolve_delegation, params_get. now rewrite H.
Qed.

(** ** The further properties on the sample environments *)

Lemma good_server_usage_readable : usage_readable Sample.good_server.
Proof.
  intros history r resp j Hs Hj.
  unfold Sample.good_server, Sample.scripted in Hs.
  destruct (method r); [destruct (Sample.is_url assets_url r)|];
    injection Hs as <-; simpl in Hj; try discriminate; injection Hj as <-;
    eexists; (split; [reflexivity|]); simpl; eauto.
Qed.

Lemma element_converts_iff_well_formed_witness :
  convert_element Sample.float_of_str Sample.title_element = Ok Sample.title_region.
Proof.
  apply (proj2 (element_converts_iff_well_formed Sample.float_of_str
                  Sample.title_element Sample.title_region)).
  exists Sample.title_view. split; [|reflexivity].
  split; [reflexivity|]. split; [right; eexists; reflexivity|].
  repeat split.
Defined.

Lemma returned_regions_convert_a_prefix_witness :
  exists dets,
    fst (Sample.parse Sample.broken_response (Sample.start [] ∅)) =
      Ok (mkDetections dets) /\
    (length dets <= 2)%nat /\
    Forall2 (fun el d => convert_element Sample.float_of_str el = Ok d)
      (take (length dets) [Sample.title_element; Sample.bare_element]) dets.
Proof.
  apply (returned_regions_convert_a_prefix Sample.json_loads Sample.float_of_str
           Sample.broken_response
           [Sample.title_element; Sample.bare_element] (Sample.start [] ∅)).
  reflexivity.
Defined.

Lemma conversion_is_silent_iff_all_converted_witness :
  snd (Sample.parse Sample.good_response (Sample.start [] ∅)) = Sample.start [] ∅.
Proof.
  apply (proj2 (conversion_is_silent_iff_all_converted
                  Sample.json_loads Sample.float_of_str
                  Sample.good_response (Sample.start [] ∅))).
  exists [Sample.title_element]. split; [reflexivity|].
  constructor; [|constructor]. exists Sample.title_region. reflexivity.
Defined.

Lemma object_or_string_for_elements_gives_no_region_witness :
  fst (parse_nemo_response_to_detections Sample.flat_loads Sample.float_of_str
         Sample.flat_response (Sample.start [] ∅)) = Ok (mkDetections []).
Proof.
  apply (object_or_string_for_elements_gives_no_region
           Sample.flat_loads Sample.float_of_str Sample.flat_response
           Sample.flat_text (JList [Sample.title_element]) Sample.title_element).
  - reflexivity.
  - reflexivity.
  - reflexivity.
  - left. eexists. reflexivity.
Defined.

Lemma only_first_choice_is_read_witness :
  Sample.parse (JDict Sample.two_choices) (Sample.start [] ∅) =
  (Ok (mkDetections [Sample.title_region]), Sample.start [] ∅).
Proof.
  unfold Sample.parse.
  rewrite (only_first_choice_is_read Sample.json_loads Sample.float_of_str
             Sample.two_choices
             (JDict [("message",
                JDict [("tool_calls",
                  JList [JDict [("function",
                    JDict [("arguments", JStr Sample.one_title)])]])])])
             [JDict [("message", JDict [("content", JStr "second")])]]
             (Sample.start [] ∅) eq_refl).
  reflexivity.
Defined.

Lemma asset_headers_extend_base_headers_witness :
  create_headers Sample.api_key (Some "asset-1") !! "Accept" = Some "application/json".
Proof.
  apply (proj1 (asset_headers_extend_base_headers Sample.api_key (Some "asset-1"))).
  reflexivity.
Defined.

Lemma upload_returns_only_after_both_calls_witness :
  exists auth_data v,
    getitem auth_data "assetId" = Ok v /\
    "asset-1" = py_str Sample.repr v.
Proof.
  destruct (upload_returns_only_after_both_calls
              Sample.repr Sample.good_server Sample.image "Test Image"
              Sample.api_key "asset-1" (Sample.start [] ∅)
              (sent [register_request "Test Image" Sample.api_key;
                     upload_request Sample.slot_url Sample.image "Test Image"]
                    (Sample.start [] ∅))
              eq_refl)
    as (r1 & auth_data & upload_url & r2 & v & _ & _ & _ & _ & _ & _ & Hid & Hv & _).
  exists auth_data, v. split; assumption.
Defined.

Lemma missing_asset_id_raises_after_upload_witness :
  Sample.upload Sample.forgetful_server Sample.image "Test Image"
      Sample.api_key (Sample.start [] ∅) =
    (Raise KeyError,
     sent [register_request "Test Image" Sample.api_key;
           upload_request Sample.slot_url Sample.image "Test Image"]
          (Sample.start [] ∅)).
Proof.
  apply (missing_asset_id_raises_after_upload
           Sample.repr Sample.forgetful_server Sample.image "Test Image"
           Sample.api_key (Sample.start [] ∅)
           Sample.slot_without_id Sample.stored
           (JDict [("uploadUrl", Sample.slot_url)]) Sample.slot_url KeyError).
  - reflexivity.
  - simpl; lia.
  - reflexivity.
  - reflexivity.
  - reflexivity.
  - simpl; lia.
  - reflexivity.
Defined.

Lemma process_image_calls_in_order_witness :
  exists new,
    snd (Sample.process Sample.good_server "a.jpg" Sample.api_key
           (Sample.start [] ∅)) = sent new (Sample.start [] ∅) /\
    length new = 3%nat.
Proof.
  destruct (process_image_calls_in_order
              Sample.repr Sample.read_file Sample.good_server
              "a.jpg" Sample.api_key (Sample.start [] ∅))
    as (new & upload_url & image_data & asset_id & Hs & _ & Hall).
  exists new. split; [exact Hs|].
  rewrite (Hall Sample.good_response eq_refl). reflexivity.
Defined.

Lemma only_parse_invocation_has_no_timeout_witness :
  (parse_request Sample.api_key "asset-1" =
     register_request "Test Image" Sample.api_key /\
   timeout (parse_request Sample.api_key "asset-1") = Some 30) \/
  (method (parse_request Sample.api_key "asset-1") = PUT /\
   timeout (parse_request Sample.api_key "asset-1") = Some 300) \/
  ((exists asset_id,
      parse_request Sample.api_key "asset-1" =
      parse_request Sample.api_key asset_id) /\
   timeout (parse_request Sample.api_key "asset-1") = None).
Proof.
  destruct (only_parse_invocation_has_no_timeout
              Sample.repr Sample.read_file Sample.good_server
              "a.jpg" Sample.api_key (Sample.start [] ∅))
    as (new & Hs & Hall).
  apply Hall.
  assert (Hnew : new = Sample.three_calls).
  { apply (sent_inj new Sample.three_calls (Sample.start [] ∅)).
    rewrite <- Hs. reflexivity. }
  rewrite Hnew. simpl. auto.
Defined.

Lemma response_is_body_of_parse_invocation_witness :
  exists before invoke answer,
    requests_made (snd (Sample.process Sample.good_server "a.jpg"
                          Sample.api_key (Sample.start [] ∅))) =
      (requests_made (Sample.start [] ∅) ++ before ++ [invoke])%list /\
    length before = 2%nat /\
    url invoke = completions_url /\
    Sample.good_server (requests_made (Sample.start [] ∅) ++ before) invoke
      = Ok answer /\
    ~ (400 <= status_code answer < 600) /\
    json_body answer = Ok Sample.good_response.
Proof.
  apply (response_is_body_of_parse_invocation
           Sample.repr Sample.read_file Sample.good_server
           "a.jpg" Sample.api_key (Sample.start [] ∅) Sample.good_response).
  reflexivity.
Defined.

Lemma unreadable_image_recorded_without_calls_witness :
  Sample.item Sample.good_server Sample.api_key "missing.jpg" (Sample.start [] ∅) =
  (Ok tt, recorded (mkDetections []) (JInt 0) (JInt 0) (JInt 0)
            (snd (print (ErrorProcessing "missing.jpg" OSError)
                    (Sample.start [] ∅)))).
Proof.
  apply (proj1 (unreadable_image_recorded_without_calls
                  Sample.json_loads Sample.float_of_str Sample.repr
                  Sample.read_file Sample.good_server
                  Sample.api_key "missing.jpg" (Sample.start [] ∅) OSError
                  eq_refl)).
Defined.

Lemma registration_error_recorded_after_one_call_witness :
  Sample.item Sample.unauthorized_once Sample.api_key "a.jpg" (Sample.start [] ∅) =
  (Ok tt, recorded (mkDetections []) (JInt 0) (JInt 0) (JInt 0)
            (snd (print (ErrorProcessing "a.jpg" (HTTPError 401))
                    (sent [register_request "Test Image" Sample.api_key]
                          (Sample.start [] ∅))))).
Proof.
  apply (registration_error_recorded_after_one_call
           Sample.json_loads Sample.float_of_str Sample.repr
           Sample.read_file Sample.unauthorized_once
           Sample.api_key "a.jpg" (Sample.start [] ∅) Sample.image
           (mkResponse 401 (Raise ValueError))).
  - reflexivity.
  - reflexivity.
  - simpl; lia.
Defined.


Lemma second_entry_iff_counters_unreadable_witness :
  (length (all_detections
             (snd (Sample.item Sample.null_usage_server Sample.api_key "a.jpg"
                     (Sample.start [] ∅))))
   - length (all_detections (Sample.start [] ∅)))%nat = 2%nat.
Proof.
  apply (proj2 (proj2 (second_entry_iff_counters_unreadable
                         Sample.json_loads Sample.float_of_str Sample.repr
                         Sample.read_file Sample.null_usage_server
                         Sample.api_key "a.jpg" (Sample.start [] ∅)))).
  exists Sample.null_usage_response, AttributeError. split; reflexivity.
Defined.

Lemma fields_aligned_when_counters_readable_witness :
  exists d p c t,
    fields (ds (snd (Sample.batch Sample.good_server Sample.api_key
                       (Sample.start ["a.jpg"; "missing.jpg"] ∅))))
      !! "nemo_detections" = Some d /\
    fields (ds (snd (Sample.batch Sample.good_server Sample.api_key
                       (Sample.start ["a.jpg"; "missing.jpg"] ∅))))
      !! "nemo_prompt_tokens" = Some p /\
    fields (ds (snd (Sample.batch Sample.good_server Sample.api_key
                       (Sample.start ["a.jpg"; "missing.jpg"] ∅))))
      !! "nemo_completion_tokens" = Some c /\
    fields (ds (snd (Sample.batch Sample.good_server Sample.api_key
                       (Sample.start ["a.jpg"; "missing.jpg"] ∅))))
      !! "nemo_total_tokens" = Some t /\
    length d = 2%nat /\ length p = 2%nat /\ length c = 2%nat /\ length t = 2%nat.
Proof.
  apply (fields_aligned_when_counters_readable
           Sample.json_loads Sample.float_of_str Sample.repr
           Sample.read_file Sample.good_server Sample.api_key
           (Sample.start ["a.jpg"; "missing.jpg"] ∅)
           good_server_usage_readable).
Defined.

Lemma empty_dataset_writes_empty_fields_witness :
  Sample.batch Sample.good_server Sample.api_key (Sample.start [] ∅) =
  (Ok tt,
   mkState [] [] [] [] [] []
     (mkDataset []
        (<["nemo_total_tokens" := []]>
         (<["nemo_completion_tokens" := []]>
          (<["nemo_prompt_tokens" := []]>
           (<["nemo_detections" := []]> ∅)))))).
Proof.
  apply (empty_dataset_writes_empty_fields
           Sample.json_loads Sample.float_of_str Sample.repr
           Sample.read_file Sample.good_server Sample.api_key
           (Sample.start [] ∅)).
  reflexivity.
Defined.

Lemma call_params_round_trip_witness :
  resolve_delegation {[ "api_key" := PStr Sample.api_key ]} = PBool false.
Proof.
  apply (proj2 (proj2 (call_params_round_trip Sample.api_key true))).
  reflexivity.
Defined.
